(** * Naukri job scraper: the extraction and enrichment pipeline

    A shallow embedding of [naukriScraper.js] (the enriched schema
    revision): the skill matcher, the search-URL builder, the listing-card
    and detail-page extraction passes, the detail enricher and the
    pagination driver, followed by the properties of the specification
    that concern them.  The login, the life cycle of the browser, the
    first schema revision of the scraper and the commands of [index.js]
    that scrape and save are embedded as well, with further properties of
    the code at the end.

    Conventions of the embedding.
    - A JavaScript string is a [string]: the sequence of the bytes of its
      UTF-8 encoding.  The built-ins [toLowerCase], [trim], [\s] and [\d]
      are the ECMAScript ones on the ASCII range; bytes above 127 are
      neither letters nor white space (the Unicode case and white-space
      tables are outside the embedding), and [length] counts bytes.
    - A JavaScript number that is formatted into a string (a page number,
      an experience bound) is an integer, a [Z], printed in decimal.
    - [undefined]/[null] are [None].
    - The browser is explicit state, the site an explicit environment, and
      a rejected promise is the [Throw] result of the monad [M]. *)

From Stdlib Require Import ZArith List String Ascii Bool Lia DecimalString.
From Stdlib Require Import DecimalPos DecimalZ.
Import ListNotations.
Local Open Scope string_scope.
Local Open Scope bool_scope.

(** ** ECMAScript built-ins used by the scraper *)

Module JS.

Definition code (c : ascii) : nat := nat_of_ascii c.

Definition between (lo hi : nat) (c : ascii) : bool :=
  (lo <=? code c)%nat && (code c <=? hi)%nat.

Definition isUpper : ascii -> bool := between 65 90.
Definition isLower : ascii -> bool := between 97 122.
Definition isDigit : ascii -> bool := between 48 57.

(** [\s] and the characters stripped by [trim]: TAB, LF, VT, FF, CR, SP. *)
Definition isWhiteSpace (c : ascii) : bool :=
  between 9 13 c || (code c =? 32)%nat.

Definition lowerChar (c : ascii) : ascii :=
  if isUpper c then ascii_of_nat (code c + 32) else c.

(** [String.prototype.toLowerCase] *)
Fixpoint toLowerCase (s : string) : string :=
  match s with
  | "" => ""
  | String c r => String (lowerChar c) (toLowerCase r)
  end.

Fixpoint trimStart (s : string) : string :=
  match s with
  | "" => ""
  | String c r => if isWhiteSpace c then trimStart r else s
  end.

Fixpoint trimEnd (s : string) : string :=
  match s with
  | "" => ""
  | String c r =>
      match trimEnd r with
      | "" => if isWhiteSpace c then "" else String c ""
      | r' => String c r'
      end
  end.

(** [String.prototype.trim] *)
Definition trim (s : string) : string := trimEnd (trimStart s).

(** [s.startsWith(x)] *)
Fixpoint startsWith (s x : string) : bool :=
  match x, s with
  | "", _ => true
  | String _ _, "" => false
  | String a x', String b s' => Ascii.eqb a b && startsWith s' x'
  end.

(** [s.includes(x)]: [x] occurs in [s] at some position. *)
Fixpoint includes (s x : string) : bool :=
  startsWith s x ||
  match s with
  | "" => false
  | String _ r => includes r x
  end.

(** [s.replace(/\s+/g, '-')]: each maximal run of white space becomes one
    hyphen.  [inRun] tells that the previous character belonged to the run
    being replaced. *)
Fixpoint replaceRuns (inRun : bool) (s : string) : string :=
  match s with
  | "" => ""
  | String c r =>
      if isWhiteSpace c
      then if inRun then replaceRuns true r else String "-" (replaceRuns true r)
      else String c (replaceRuns false r)
  end.

Definition replaceWhitespace (s : string) : string := replaceRuns false s.

(** The characters [encodeURIComponent] leaves alone:
    [A-Z a-z 0-9 - _ . ! ~ * ' ( )]. *)
Definition isUnreserved (c : ascii) : bool :=
  isUpper c || isLower c || isDigit c ||
  existsb (Ascii.eqb c) (list_ascii_of_string "-_.!~*'()").

Definition hexDigit (n : nat) : ascii :=
  match get n "0123456789ABCDEF" with
  | Some c => c
  | None => "0"%char
  end.

Definition percent (c : ascii) : string :=
  String "%" (String (hexDigit (code c / 16)) (String (hexDigit (code c mod 16)) "")).

(** [encodeURIComponent] on the UTF-8 bytes of its argument. *)
Fixpoint encodeURIComponent (s : string) : string :=
  match s with
  | "" => ""
  | String c r =>
      if isUnreserved c then String c (encodeURIComponent r)
      else percent c ++ encodeURIComponent r
  end.

(** [Number.prototype.toString] of an integer, as a template literal
    formats it. *)
Definition numberToString (n : Z) : string :=
  NilZero.string_of_int (Z.to_int n).

(** [a || b] on strings: the empty string is falsy. *)
Definition orElse (a b : string) : string :=
  match a with
  | "" => b
  | _ => a
  end.

(** [Boolean(s)] on strings. *)
Definition truthy (s : string) : bool :=
  match s with
  | "" => false
  | _ => true
  end.

(** [opt?.textContent?.trim() || dflt] *)
Definition trimmedOr (opt : option string) (dflt : string) : string :=
  match opt with
  | Some t => orElse (trim t) dflt
  | None => dflt
  end.

(** [[...new Set(xs)]]: the distinct elements in order of first
    occurrence. *)
Fixpoint uniqueFrom (seen : list string) (xs : list string) : list string :=
  match xs with
  | [] => []
  | x :: r =>
      if existsb (String.eqb x) seen then uniqueFrom seen r
      else x :: uniqueFrom (x :: seen) r
  end.

Definition unique (xs : list string) : list string := uniqueFrom [] xs.

End JS.

Import JS.

(** ** The skill matcher *)

(** [matchSkills(jobSkills, configSkills)]; an absent argument is [None]. *)
Definition matchSkills (jobSkills configSkills : option (list string)) : list string :=
  match configSkills, jobSkills with
  | Some configSkills, Some jobSkills =>
      if (List.length configSkills =? 0)%nat || (List.length jobSkills =? 0)%nat
      then []
      else
        let normalizedConfigSkills :=
          map (fun s => trim (toLowerCase s)) configSkills in
        filter
          (fun skill =>
             let normalizedSkill := trim (toLowerCase skill) in
             existsb
               (fun configSkill =>
                  includes normalizedSkill configSkill
                  || includes configSkill normalizedSkill)
               normalizedConfigSkills)
          jobSkills
  | _, _ => []
  end.

(** ** The search URL *)

(** The experience filter of the configuration, [{ min, max }]. *)
Record Experience := mkExperience {
  min : option Z;
  max : option Z
}.

Definition isDefined {A} (o : option A) : bool :=
  match o with
  | Some _ => true
  | None => false
  end.

(** [NaukriScraper.buildSearchUrl(keyword, pageNum, experience)] *)
Definition buildSearchUrl (keyword : string) (pageNum : Z)
    (experience : option Experience) : string :=
  let encodedKeyword :=
    encodeURIComponent (replaceWhitespace (toLowerCase keyword)) in
  let searchParam := encodeURIComponent keyword in
  let url :=
    if (pageNum =? 1)%Z
    then "https://www.naukri.com/" ++ encodedKeyword ++ "-jobs?k=" ++ searchParam
    else "https://www.naukri.com/" ++ encodedKeyword ++ "-jobs-"
           ++ numberToString pageNum ++ "?k=" ++ searchParam in
  match experience with
  | Some e =>
      if isDefined (min e) || isDefined (max e)
      then
        let url :=
          match min e with
          | Some m => url ++ "&niyoMinExp=" ++ numberToString m
          | None => url
          end in
        match max e with
        | Some m => url ++ "&niyoMaxExp=" ++ numberToString m
        | None => url
        end
      else url
  | None => url
  end.



(** ** Data model *)

(** A record pushed by the listing pass ([extractJobCards]). *)
Record JobListing := mkListing {
  title : string;
  company : string;
  location : string;
  experience : string;
  salary : string;
  skills : list string;
  description : string;
  jobUrl : string;
  postedDate : string;
  searchKeyword : string;
  scrapedAt : string
}.

(** The record built by the detail pass ([scrapeJobDetails]). *)
Record JobDetail := mkDetail {
  fullDescription : string;
  keySkills : list string;
  industryTypes : list string;
  jobPostedAt : string;
  salaryOffered : string;
  totalVacancy : string
}.

(** The initial value of [details] and of [result] in [scrapeJobDetails]. *)
Definition defaultDetail : JobDetail :=
  {| fullDescription := "";
     keySkills := [];
     industryTypes := [];
     jobPostedAt := "Not specified";
     salaryOffered := "Not disclosed";
     totalVacancy := "Not specified" |}.

(** A job object as [scrapeJobs] returns it: the listing fields, the six
    merged detail fields (they carry the names of [JobDetail]) and the two
    derived fields. *)
Record Job := mkJob {
  listing : JobListing;
  merged : JobDetail;
  matchedSkills : list string;
  experienceFilter : string
}.

(** ** What the selectors see *)

(** One listing card: for every [card.querySelector] of [extractJobCards]
    the [textContent] (the [href] for the link) of the element found, [None]
    when no element matches; for [querySelectorAll] the texts in document
    order. *)
Record CardDom := mkCard {
  titleElement : option string;
  linkElement : option string;
  companyElement : option string;
  locationElement : option string;
  expElement : option string;
  salaryElement : option string;
  skillElements : list string;
  descElement : option string;
  dateElement : option string
}.

(** An element of [allLabels] with the text of [siblingOrValue]. *)
Record LabelNode := mkLabel {
  labelContent : string;
  siblingOrValue : option string
}.

(** An element of [detailSections]: its heading and its value elements. *)
Record SectionNode := mkSection {
  heading : option string;
  sectionValues : list string
}.

(** A detail page: for every selector list of the detail pass, in the
    order of the list, what [querySelector] ([option]) or
    [querySelectorAll] ([list]) returns, as [textContent]. *)
Record DetailDom := mkDetailDom {
  descNodes : list (option string);
  skillNodes : list (list string);
  allLabels : list LabelNode;
  salaryNodes : list (option string);
  dateNodes : list (list string);
  infoSpans : list string;
  detailSections : list SectionNode
}.

(** ** The listing pass *)

(** The body of [jobCards.forEach] in [extractJobCards]: the record pushed
    for one card, if any. *)
Definition extractCard (searchKeyword now : string) (card : CardDom)
    : option JobListing :=
  let title := trimmedOr (titleElement card) "" in
  let jobUrl := match linkElement card with Some href => orElse href "" | None => "" end in
  let company := trimmedOr (companyElement card) "" in
  let location := trimmedOr (locationElement card) "Not specified" in
  let experience := trimmedOr (expElement card) "Not specified" in
  let salary := trimmedOr (salaryElement card) "Not disclosed" in
  let skills := filter truthy (map trim (skillElements card)) in
  let description := trimmedOr (descElement card) "" in
  let postedDate := trimmedOr (dateElement card) "Not specified" in
  if truthy title && truthy company && truthy jobUrl
  then Some {| title := title; company := company; location := location;
               experience := experience; salary := salary; skills := skills;
               description := description; jobUrl := jobUrl;
               postedDate := postedDate; searchKeyword := searchKeyword;
               scrapedAt := now |}
  else None.

(** The callback of [page.evaluate] in [extractJobCards]: [jobs] starts
    empty and each card pushes at most one record. *)
Definition extractJobCardsDom (searchKeyword now : string)
    (jobCards : list CardDom) : list JobListing :=
  fold_left
    (fun jobs card =>
       match extractCard searchKeyword now card with
       | Some job => (jobs ++ [job])%list
       | None => jobs
       end)
    jobCards [].

(** ** The detail pass *)

Module Detail.

(** Record updates, [result.f = v]. *)
Definition setFullDescription (v : string) (r : JobDetail) : JobDetail :=
  mkDetail v (keySkills r) (industryTypes r) (jobPostedAt r) (salaryOffered r) (totalVacancy r).
Definition setKeySkills (v : list string) (r : JobDetail) : JobDetail :=
  mkDetail (fullDescription r) v (industryTypes r) (jobPostedAt r) (salaryOffered r) (totalVacancy r).
Definition setIndustryTypes (v : list string) (r : JobDetail) : JobDetail :=
  mkDetail (fullDescription r) (keySkills r) v (jobPostedAt r) (salaryOffered r) (totalVacancy r).
Definition setJobPostedAt (v : string) (r : JobDetail) : JobDetail :=
  mkDetail (fullDescription r) (keySkills r) (industryTypes r) v (salaryOffered r) (totalVacancy r).
Definition setSalaryOffered (v : string) (r : JobDetail) : JobDetail :=
  mkDetail (fullDescription r) (keySkills r) (industryTypes r) (jobPostedAt r) v (totalVacancy r).
Definition setTotalVacancy (v : string) (r : JobDetail) : JobDetail :=
  mkDetail (fullDescription r) (keySkills r) (industryTypes r) (jobPostedAt r) (salaryOffered r) v.

(** The longest prefix of digits, and what follows it. *)
Fixpoint takeDigits (s : string) : string :=
  match s with
  | "" => ""
  | String c r => if isDigit c then String c (takeDigits r) else ""
  end.

Fixpoint dropDigits (s : string) : string :=
  match s with
  | "" => ""
  | String c r => if isDigit c then dropDigits r else s
  end.

(** [s.match(/\d+/)]: the leftmost maximal run of digits. *)
Fixpoint matchDigits (s : string) : option string :=
  match s with
  | "" => None
  | String c r => if isDigit c then Some (takeDigits s) else matchDigits r
  end.

(** [/openings?/i.test(s)] *)
Definition testOpenings (s : string) : bool :=
  includes (toLowerCase s) "opening".

(** [/(\d+)\s*openings?/i] anchored at the head of [s]: group 1.  The
    greedy [\d+] and [\s*] never have to give characters back, since what
    follows each of them cannot start with a character of its own class. *)
Definition openingsHere (s : string) : option string :=
  if truthy (takeDigits s)
     && startsWith (toLowerCase (trimStart (dropDigits s))) "opening"
  then Some (takeDigits s)
  else None.

(** [s.match(/(\d+)\s*openings?/i)]: group 1 of the leftmost match. *)
Fixpoint matchOpenings (s : string) : option string :=
  match openingsHere s with
  | Some d => Some d
  | None =>
      match s with
      | "" => None
      | String _ r => matchOpenings r
      end
  end.

(** [s.split(/[,/]/)] *)
Definition isSeparator (c : ascii) : bool :=
  Ascii.eqb c "," || Ascii.eqb c "/".

Fixpoint split (s : string) : list string :=
  match s with
  | "" => [""]
  | String c r =>
      if isSeparator c then "" :: split r
      else
        match split r with
        | h :: t => String c h :: t
        | [] => [String c ""]
        end
  end.

(** The loop over [descSelectors], with its [break]. *)
Fixpoint description (nodes : list (option string)) (result : JobDetail) : JobDetail :=
  match nodes with
  | [] => result
  | el :: rest =>
      match el with
      | Some text =>
          if (50 <? length (trim text))%nat
          then setFullDescription (trim text) result
          else description rest result
      | None => description rest result
      end
  end.

(** The loop over [skillSelectors]: the first selector with elements fills
    [skillSet] and breaks. *)
Fixpoint skillSet (groups : list (list string)) : list string :=
  match groups with
  | [] => []
  | elements :: rest =>
      if (0 <? List.length elements)%nat
      then unique
             (filter (fun text => truthy text && (length text <? 100)%nat)
                     (map trim elements))
      else skillSet rest
  end.

(** The body of [allLabels.forEach]. *)
Definition labelStep (result : JobDetail) (label : LabelNode) : JobDetail :=
  let labelText := orElse (toLowerCase (trim (labelContent label))) "" in
  let valueText := trimmedOr (siblingOrValue label) "" in
  let result :=
    if includes labelText "industry"
    then setIndustryTypes
           (filter (fun s => truthy s && negb (includes (toLowerCase s) "industry"))
                   (map trim (split valueText)))
           result
    else result in
  if includes labelText "vacancy" || includes labelText "opening"
  then match matchDigits valueText with
       | Some vacancyMatch => setTotalVacancy vacancyMatch result
       | None => result
       end
  else result.

(** The loop over [salarySelectors], with its [break]. *)
Fixpoint salaryFrom (nodes : list (option string)) (result : JobDetail) : JobDetail :=
  match nodes with
  | [] => result
  | el :: rest =>
      match el with
      | Some content =>
          let text := trim content in
          if truthy text && negb (String.eqb text "")
             && negb (includes (toLowerCase text) "not disclosed")
          then setSalaryOffered text result
          else salaryFrom rest result
      | None => salaryFrom rest result
      end
  end.

(** The body of [elements.forEach] in the loop over [dateSelectors]. *)
Definition dateStep (result : JobDetail) (content : string) : JobDetail :=
  let text := orElse (toLowerCase (trim content)) "" in
  if includes text "ago" || includes text "posted" || includes text "day"
     || includes text "today" || includes text "just now"
  then setJobPostedAt (trim content) result
  else result.

(** The body of [infoSpans.forEach]. *)
Definition spanStep (result : JobDetail) (content : string) : JobDetail :=
  let text := orElse (trim content) "" in
  if testOpenings text && isDefined (matchDigits text) && (length text <? 30)%nat
  then match matchOpenings text with
       | Some m => setTotalVacancy m result
       | None => result
       end
  else result.

(** The body of [detailSections.forEach]. *)
Definition sectionStep (result : JobDetail) (section : SectionNode) : JobDetail :=
  let headText :=
    match heading section with
    | Some h => orElse (toLowerCase (trim h)) ""
    | None => ""
    end in
  if includes headText "industry"
  then fold_left
         (fun result v =>
            let t := trim v in
            if truthy t && (length t <? 100)%nat
               && negb (includes (toLowerCase t) "industry")
            then setIndustryTypes (industryTypes result ++ [t])%list result
            else result)
         (sectionValues section) result
  else result.

(** The callback of [detailPage.evaluate], statement by statement. *)
Definition evaluate (document : DetailDom) : JobDetail :=
  let result := defaultDetail in
  let result := description (descNodes document) result in
  let result := setKeySkills (skillSet (skillNodes document)) result in
  let result := fold_left labelStep (allLabels document) result in
  let result := salaryFrom (salaryNodes document) result in
  let result :=
    fold_left (fun result elements => fold_left dateStep elements result)
              (dateNodes document) result in
  let result := fold_left spanStep (infoSpans document) result in
  let result :=
    if (List.length (industryTypes result) =? 0)%nat
    then fold_left sectionStep (detailSections document) result
    else result in
  result.

End Detail.

(** ** The browser, the site and rejected promises *)

(** A JavaScript [Error]. *)
Record Error := mkError { message : string }.

(** The target site as the scraper observes it during one run, address by
    address: whether [goto] is rejected (a navigation error or a navigation
    timeout), whether [waitForSelector] for the listing cards is rejected
    (its bounded wait expires), and what [evaluate] finds in the document,
    unless it is rejected (an evaluation error).  [now] is the time stamp
    [new Date().toISOString()].  The calls that do not reach the site
    ([newPage], [setUserAgent], [setViewport], [close]) resolve. *)
Record Site := mkSite {
  goto : string -> option Error;
  waitForSelector : string -> option Error;
  listingDocument : string -> Error + list CardDom;
  detailDocument : string -> Error + DetailDom;
  now : string
}.

(** The browser process: the location of the primary page ([this.page]) and
    the secondary pages that are open, each with its location. *)
Record Browser := mkBrowser {
  page : string;
  openPages : list (nat * string);
  nextPage : nat
}.

Inductive Result (A : Type) : Type :=
| Ok (value : A)
| Throw (error : Error).
Arguments Ok {A} value.
Arguments Throw {A} error.

(** An [async] computation: it runs on the browser and either resolves or
    rejects; the effects made before a rejection stay. *)
Definition M (A : Type) : Type := Browser -> Result A * Browser.

Definition ret {A} (a : A) : M A := fun b => (Ok a, b).

Definition throw {A} (e : Error) : M A := fun b => (Throw e, b).

Definition bind {A B} (c : M A) (k : A -> M B) : M B :=
  fun b =>
    match c b with
    | (Ok a, b') => k a b'
    | (Throw e, b') => (Throw e, b')
    end.

(** [try { body } catch (error) { handler }] *)
Definition tryCatch {A} (body : M A) (handler : Error -> M A) : M A :=
  fun b =>
    match body b with
    | (Ok a, b') => (Ok a, b')
    | (Throw e, b') => handler e b'
    end.

Declare Scope async_scope.
Delimit Scope async_scope with async.
Notation "x <- c ;; k" := (bind c (fun x => k))
  (at level 61, c at next level, right associativity) : async_scope.
Notation "c ;; k" := (bind c (fun _ => k))
  (at level 61, right associativity) : async_scope.
Local Open Scope async_scope.

(** Resolve or reject as the site says. *)
Definition settle (outcome : option Error) : M unit :=
  match outcome with
  | Some e => throw e
  | None => ret tt
  end.

Module Puppeteer.

(** [this.page.goto(url, ...)] *)
Definition pageGoto (site : Site) (url : string) : M unit :=
  settle (goto site url) ;;
  fun b => (Ok tt, mkBrowser url (openPages b) (nextPage b)).

(** [this.page.waitForSelector(cards, { timeout })] *)
Definition pageWaitForSelector (site : Site) : M unit :=
  fun b => settle (waitForSelector site (page b)) b.

(** [this.browser.newPage()] *)
Definition newPage : M nat :=
  fun b =>
    (Ok (nextPage b),
     mkBrowser (page b) (openPages b ++ [(nextPage b, "about:blank")])%list
               (S (nextPage b))).

Fixpoint relocate (id : nat) (url : string) (pages : list (nat * string))
    : list (nat * string) :=
  match pages with
  | [] => []
  | (i, u) :: rest =>
      if (i =? id)%nat then (i, url) :: rest else (i, u) :: relocate id url rest
  end.

Fixpoint locationOf (id : nat) (pages : list (nat * string)) : option string :=
  match pages with
  | [] => None
  | (i, u) :: rest => if (i =? id)%nat then Some u else locationOf id rest
  end.

(** [detailPage.goto(url, ...)] *)
Definition tabGoto (site : Site) (detailPage : nat) (url : string) : M unit :=
  settle (goto site url) ;;
  fun b => (Ok tt, mkBrowser (page b) (relocate detailPage url (openPages b)) (nextPage b)).

(** [detailPage.evaluate(callback)], given the callback on the document. *)
Definition tabEvaluate {A} (site : Site) (detailPage : nat)
    (callback : DetailDom -> A) : M A :=
  fun b =>
    match locationOf detailPage (openPages b) with
    | Some url =>
        match detailDocument site url with
        | inr document => (Ok (callback document), b)
        | inl e => (Throw e, b)
        end
    | None => (Throw (mkError "Target closed"), b)
    end.

(** [detailPage.close()] *)
Definition tabClose (detailPage : nat) : M unit :=
  fun b =>
    (Ok tt,
     mkBrowser (page b)
               (filter (fun p => negb (fst p =? detailPage)%nat) (openPages b))
               (nextPage b)).

End Puppeteer.

Import Puppeteer.

(** [NaukriScraper.extractJobCards(keyword)]: [page.evaluate] on the
    document of the primary page. *)
Definition extractJobCards (site : Site) (keyword : string) : M (list JobListing) :=
  fun b =>
    match listingDocument site (page b) with
    | inr jobCards => (Ok (extractJobCardsDom keyword (now site) jobCards), b)
    | inl e => (Throw e, b)
    end.

(** [NaukriScraper.scrapeJobDetails(jobUrl)].  Setting the user agent and
    the viewport, the settle delay and the console are not part of the
    embedding. *)
Definition scrapeJobDetails (site : Site) (jobUrl : string) : M JobDetail :=
  let details := defaultDetail in
  tryCatch
    (detailPage <- newPage ;;
     tabGoto site detailPage jobUrl ;;
     pageDetails <- tabEvaluate site detailPage Detail.evaluate ;;
     let details := pageDetails in
     tabClose detailPage ;;
     ret details)
    (fun error => ret details).

(** The [config] argument of [scrapeJobs]. *)
Module Config.
Record t := make {
  experience : option Experience;
  skills : option (list string);
  scrapeJobDetails : option bool
}.
End Config.

(** [`${experience.min || 0}-${experience.max || 'any'} yrs`] *)
Definition experienceLabel (experience : option Experience) : string :=
  match experience with
  | Some e =>
      (match min e with
       | Some m => if (m =? 0)%Z then "0" else numberToString m
       | None => "0"
       end)
      ++ "-" ++
      (match max e with
       | Some m => if (m =? 0)%Z then "any" else numberToString m
       | None => "any"
       end)
      ++ " yrs"
  | None => ""
  end.

(** The merge of the detail record into the job and the skill match: the
    body of the loop over [jobs] when details are scraped, after
    [scrapeJobDetails] has returned. *)
Definition mergeDetails (configSkills : list string) (label : string)
    (job : JobListing) (details : JobDetail) : Job :=
  let fullDescription' := orElse (fullDescription details) "" in
  let keySkills' :=
    if (0 <? List.length (keySkills details))%nat
    then keySkills details else skills job in
  let industryTypes' := industryTypes details in
  let jobPostedAt' := orElse (jobPostedAt details) (postedDate job) in
  let salaryOffered' := orElse (salaryOffered details) (salary job) in
  let totalVacancy' := orElse (totalVacancy details) "Not specified" in
  let allJobSkills := unique (skills job ++ keySkills')%list in
  {| listing := job;
     merged := mkDetail fullDescription' keySkills' industryTypes'
                        jobPostedAt' salaryOffered' totalVacancy';
     matchedSkills := matchSkills (Some allJobSkills) (Some configSkills);
     experienceFilter := label |}.

(** The body of the loop over [jobs] when details are not scraped. *)
Definition withoutDetails (configSkills : list string) (label : string)
    (job : JobListing) : Job :=
  {| listing := job;
     merged := mkDetail "" (skills job) [] (postedDate job) (salary job)
                        "Not specified";
     matchedSkills := matchSkills (Some (skills job)) (Some configSkills);
     experienceFilter := label |}.

(** [for (let i = 0; i < jobs.length; i++)]: the jobs are enriched one
    after the other. *)
Fixpoint enrichAll (site : Site) (configSkills : list string) (label : string)
    (jobs : list JobListing) : M (list Job) :=
  match jobs with
  | [] => ret []
  | job :: rest =>
      details <- scrapeJobDetails site (jobUrl job) ;;
      let job' := mergeDetails configSkills label job details in
      rest' <- enrichAll site configSkills label rest ;;
      ret (job' :: rest')
  end.

(** How one turn of the page loop ends. *)
Inductive Turn :=
| Break
| Pushed (jobs : list Job).

(** The [try] block of the page loop of [scrapeJobs]. *)
Definition scrapePage (site : Site) (keyword : string) (pageNum : Z)
    (experience : option Experience) (configSkills : list string)
    (shouldScrapeDetails : bool) (label : string) : M Turn :=
  let url := buildSearchUrl keyword pageNum experience in
  pageGoto site url ;;
  found <- tryCatch (pageWaitForSelector site ;; ret true)
                    (fun e => ret false) ;;
  if negb found then ret Break
  else
    jobs <- extractJobCards site keyword ;;
    if (List.length jobs =? 0)%nat then ret Break
    else
      jobs' <- (if shouldScrapeDetails
                then enrichAll site configSkills label jobs
                else ret (map (withoutDetails configSkills label) jobs)) ;;
      ret (Pushed jobs').

(** [for (let pageNum = 1; pageNum <= maxPages; pageNum++)], entered with
    [remaining] turns left, at page [pageNum], with [allJobs] collected. *)
Fixpoint pageLoop (site : Site) (keyword : string)
    (experience : option Experience) (configSkills : list string)
    (shouldScrapeDetails : bool) (label : string)
    (remaining : nat) (pageNum : Z) (allJobs : list Job) : M (list Job) :=
  match remaining with
  | O => ret allJobs
  | S remaining' =>
      turn <- tryCatch
                (scrapePage site keyword pageNum experience configSkills
                            shouldScrapeDetails label)
                (fun error =>
                   if (pageNum =? 1)%Z
                   then throw (mkError ("Failed to scrape jobs: " ++ message error))
                   else ret Break) ;;
      match turn with
      | Break => ret allJobs
      | Pushed jobs =>
          pageLoop site keyword experience configSkills shouldScrapeDetails
                   label remaining' (pageNum + 1)%Z (allJobs ++ jobs)%list
      end
  end.

(** [NaukriScraper.scrapeJobs(keyword, maxPages, config)] *)
Definition scrapeJobs (site : Site) (keyword : string) (maxPages : Z)
    (config : Config.t) : M (list Job) :=
  let experience := Config.experience config in
  let configSkills :=
    match Config.skills config with Some s => s | None => [] end in
  let shouldScrapeDetails :=
    match Config.scrapeJobDetails config with Some false => false | _ => true end in
  let label := experienceLabel experience in
  pageLoop site keyword experience configSkills shouldScrapeDetails label
           (Z.to_nat maxPages) 1%Z [].

(** ** The first schema revision of the scraper *)

(** [naukriScraper.js] before detail scraping, skill matching and the
    experience filter.  Its [extractJobCards] is, statement by statement,
    the one embedded above. *)
Module Legacy.

(** [NaukriScraper.buildSearchUrl(keyword, pageNum)] *)
Definition buildSearchUrl (keyword : string) (pageNum : Z) : string :=
  let encodedKeyword :=
    encodeURIComponent (replaceWhitespace (toLowerCase keyword)) in
  let searchParam := encodeURIComponent keyword in
  if (pageNum =? 1)%Z
  then "https://www.naukri.com/" ++ encodedKeyword ++ "-jobs?k=" ++ searchParam
  else "https://www.naukri.com/" ++ encodedKeyword ++ "-jobs-"
         ++ numberToString pageNum ++ "?k=" ++ searchParam.

(** How one turn of the page loop ends. *)
Inductive Turn :=
| Break
| Pushed (jobs : list JobListing).

(** The [try] block of the page loop. *)
Definition scrapePage (site : Site) (keyword : string) (pageNum : Z) : M Turn :=
  let url := buildSearchUrl keyword pageNum in
  pageGoto site url ;;
  found <- tryCatch (pageWaitForSelector site ;; ret true)
                    (fun e => ret false) ;;
  if negb found then ret Break
  else
    jobs <- extractJobCards site keyword ;;
    if (List.length jobs =? 0)%nat then ret Break
    else ret (Pushed jobs).

(** [for (let pageNum = 1; pageNum <= maxPages; pageNum++)] *)
Fixpoint pageLoop (site : Site) (keyword : string) (remaining : nat)
    (pageNum : Z) (allJobs : list JobListing) : M (list JobListing) :=
  match remaining with
  | O => ret allJobs
  | S remaining' =>
      turn <- tryCatch
                (scrapePage site keyword pageNum)
                (fun error =>
                   if (pageNum =? 1)%Z
                   then throw (mkError ("Failed to scrape jobs: " ++ message error))
                   else ret Break) ;;
      match turn with
      | Break => ret allJobs
      | Pushed jobs =>
          pageLoop site keyword remaining' (pageNum + 1)%Z (allJobs ++ jobs)%list
      end
  end.

(** [NaukriScraper.scrapeJobs(keyword, maxPages)] *)
Definition scrapeJobs (site : Site) (keyword : string) (maxPages : Z)
    : M (list JobListing) :=
  pageLoop site keyword (Z.to_nat maxPages) 1%Z [].

End Legacy.

(** ** Login and the browser life cycle *)

(** What the login page does to each call of [login], in the order of the
    calls: the wait for the form, the three element look-ups ([page.$]:
    rejected, or found or not), the clicks and the typing, the wait for a
    marker of a logged-in session, the look-up and the reading of an error
    message, and where the primary page is after the form is submitted. *)
Record LoginPage := mkLoginPage {
  form : option Error;
  emailInput : Error + bool;
  emailClick : option Error;
  emailType : option Error;
  passwordInput : Error + bool;
  passwordClick : option Error;
  passwordType : option Error;
  loginButton : Error + bool;
  buttonClick : option Error;
  enterPress : option Error;
  landing : string;
  marker : option Error;
  errorMsg : Error + bool;
  errorText : Error + string
}.

(** A promise that resolves with a value or rejects. *)
Definition await {A} (outcome : Error + A) : M A :=
  match outcome with
  | inl e => throw e
  | inr a => ret a
  end.

(** [!s] is false: the string is defined and not empty. *)
Definition provided (s : option string) : bool :=
  match s with
  | Some s => truthy s
  | None => false
  end.

Definition loginUrl : string := "https://www.naukri.com/nlogin/login".

(** [NaukriScraper.login(email, password)].  The delays, the console and
    the flag [isLoggedIn], which nothing reads, are not part of the
    embedding. *)
Definition login (site : Site) (loginPage : LoginPage)
    (email password : option string) : M bool :=
  if negb (provided email) || negb (provided password) then ret false
  else
    tryCatch
      (pageGoto site loginUrl ;;
       settle (form loginPage) ;;
       emailInput <- await (emailInput loginPage) ;;
       (if emailInput : bool
        then settle (emailClick loginPage) ;; settle (emailType loginPage)
        else ret tt) ;;
       passwordInput <- await (passwordInput loginPage) ;;
       (if passwordInput : bool
        then settle (passwordClick loginPage) ;; settle (passwordType loginPage)
        else ret tt) ;;
       loginButton <- await (loginButton loginPage) ;;
       (if loginButton : bool
        then settle (buttonClick loginPage)
        else settle (enterPress loginPage)) ;;
       (fun b => (Ok tt, mkBrowser (landing loginPage) (openPages b) (nextPage b))) ;;
       tryCatch
         (settle (marker loginPage) ;; ret true)
         (fun e =>
            errorMsg <- await (errorMsg loginPage) ;;
            if errorMsg : bool
            then errorText <- await (errorText loginPage) ;; ret false
            else ret false))
      (fun error => ret false).

(** The scraper object: [this.browser] is [null], a running browser, or a
    browser that has been closed. *)
Inductive Scraper :=
| NotLaunched
| Running (b : Browser)
| Closed (b : Browser).

(** The browser [initBrowser] sets up: the primary page on a blank
    document and no other page. *)
Definition launched : Browser := mkBrowser "about:blank" [] 1.

(** [NaukriScraper.initBrowser()], given whether [puppeteer.launch] is
    rejected: the error, with [this.browser] still [null], or the browser
    [this.browser] is set to. *)
Definition initBrowser (launch : option Error) : Error + Browser :=
  match launch with
  | Some e => inl e
  | None => inr launched
  end.

(** [NaukriScraper.closeBrowser()]: [if (this.browser) await
    this.browser.close()]. *)
Definition closeBrowser (s : Scraper) : Scraper :=
  match s with
  | NotLaunched => NotLaunched
  | Running b => Closed b
  | Closed b => Closed b
  end.

(** ** The command line: scrape and save *)

(** [src/index.js].  The store is the [Job] model of mongoose; the console
    and the delay between keywords are not part of the embedding. *)
Module Cli.

(** [config.json] as [loadConfig] returns it. *)
Record Scraping := mkScraping {
  pagesPerKeyword : option Z;
  delayBetweenKeywords : option Z;
  scrapeJobDetails : option bool
}.

Record File := mkFile {
  keywords : option (list string);
  skills : option (list string);
  experience : option Experience;
  scraping : option Scraping
}.

(** The summary [scrapeAndSave] returns. *)
Record Stats := mkStats {
  found : nat;
  saved : nat;
  duplicates : nat;
  matched : nat
}.

(** How [Job.findOneAndUpdate] settles: with a document, of which only
    [isNew] is read, or with an error, of which [code] and [message] are
    read. *)
Inductive SaveReply :=
| Resolved (isNew : option bool)
| Rejected (code : option Z) (message : string).

(** The environment of a run: the credentials of [process.env], whether
    the browser launches, and the login page. *)
Record Env := mkEnv {
  NAUKRI_EMAIL : option string;
  NAUKRI_PASSWORD : option string;
  launch : option Error;
  loginPage : LoginPage
}.

Section Store.

(** The store behind [Job], and what [findOneAndUpdate] with [upsert]
    does to it for one job. *)
Variable Store : Type.
Variable findOneAndUpdate : Store -> Job -> SaveReply * Store.

(** [for (const jobData of jobs)] in [scrapeAndSave]. *)
Fixpoint saveAll (jobs : list Job) (savedCount duplicateCount matchedCount : nat)
    (store : Store) : (nat * nat * nat) * Store :=
  match jobs with
  | [] => ((savedCount, duplicateCount, matchedCount), store)
  | jobData :: rest =>
      let matchedCount :=
        if (0 <? List.length (matchedSkills jobData))%nat
        then S matchedCount else matchedCount in
      match findOneAndUpdate store jobData with
      | (Resolved isNew, store') =>
          match isNew with
          | Some false => saveAll rest savedCount (S duplicateCount) matchedCount store'
          | _ => saveAll rest (S savedCount) duplicateCount matchedCount store'
          end
      | (Rejected code _, store') =>
          match code with
          | Some 11000%Z =>
              saveAll rest savedCount (S duplicateCount) matchedCount store'
          | _ => saveAll rest savedCount duplicateCount matchedCount store'
          end
      end
  end.

(** The configuration [scrapeAndSave] hands to [scrapeJobs]. *)
Definition scraperConfig (config : File) : Config.t :=
  Config.make
    (experience config)
    (Some match skills config with Some s => s | None => [] end)
    (Some match scraping config with
          | Some s => match scrapeJobDetails s with Some false => false | _ => true end
          | None => true
          end).

(** [scrapeAndSave(scraper, keyword, pages, config)], on a running
    browser. *)
Definition scrapeAndSave (site : Site) (keyword : string) (pages : Z)
    (config : File) (b : Browser) (store : Store)
    : Result Stats * (Browser * Store) :=
  match scrapeJobs site keyword pages (scraperConfig config) b with
  | (Throw e, b') => (Throw e, (b', store))
  | (Ok jobs, b') =>
      if (List.length jobs =? 0)%nat
      then (Ok (mkStats 0 0 0 0), (b', store))
      else
        let '((savedCount, duplicateCount, matchedCount), store') :=
          saveAll jobs 0 0 0 store in
        (Ok (mkStats (List.length jobs) savedCount duplicateCount matchedCount),
         (b', store'))
  end.

(** [for (let i = 0; i < keywords.length; i++)] in [runFromConfig]. *)
Fixpoint keywordLoop (site : Site) (pagesPerKeyword : Z) (config : File)
    (keywords : list string) (totalStats : Stats) (b : Browser) (store : Store)
    : Result Stats * (Browser * Store) :=
  match keywords with
  | [] => (Ok totalStats, (b, store))
  | keyword :: rest =>
      match scrapeAndSave site keyword pagesPerKeyword config b store with
      | (Throw e, state) => (Throw e, state)
      | (Ok results, (b', store')) =>
          keywordLoop site pagesPerKeyword config rest
            (mkStats (found totalStats + found results)
                     (saved totalStats + saved results)
                     (duplicates totalStats + duplicates results)
                     (matched totalStats + matched results))
            b' store'
      end
  end.

(** [config.scraping?.pagesPerKeyword || 3] *)
Definition pagesOf (config : File) : Z :=
  match scraping config with
  | Some s =>
      match pagesPerKeyword s with
      | Some n => if (n =? 0)%Z then 3%Z else n
      | None => 3%Z
      end
  | None => 3%Z
  end.

(** [runFromConfig()], given the configuration [loadConfig] returns: the
    totals it prints, [None] when there is no keyword, and the scraper
    object and the store it leaves.  The [finally] block closes the
    browser on every path of the [try] block. *)
Definition runFromConfig (env : Env) (site : Site) (config : File)
    (store : Store) : Result (option Stats) * (Scraper * Store) :=
  let keywords := match keywords config with Some k => k | None => [] end in
  if (List.length keywords =? 0)%nat then (Ok None, (NotLaunched, store))
  else
    match initBrowser (launch env) with
    | inl e => (Throw e, (closeBrowser NotLaunched, store))
    | inr b =>
        match login site (loginPage env) (NAUKRI_EMAIL env)
                    (NAUKRI_PASSWORD env) b with
        | (Throw e, b') => (Throw e, (closeBrowser (Running b'), store))
        | (Ok _, b') =>
            match keywordLoop site (pagesOf config) config keywords
                              (mkStats 0 0 0 0) b' store with
            | (Ok totalStats, (b'', store')) =>
                (Ok (Some totalStats), (closeBrowser (Running b''), store'))
            | (Throw e, (b'', store')) =>
                (Throw e, (closeBrowser (Running b''), store'))
            end
        end
    end.

(** [runSingleScrape(keyword, pages, withLogin)], with the summary it
    prints. *)
Definition runSingleScrape (env : Env) (site : Site) (config : File)
    (keyword : string) (pages : Z) (withLogin : bool) (store : Store)
    : Result Stats * (Scraper * Store) :=
  match initBrowser (launch env) with
  | inl e => (Throw e, (closeBrowser NotLaunched, store))
  | inr b =>
      match
        (if withLogin
         then login site (loginPage env) (NAUKRI_EMAIL env)
                    (NAUKRI_PASSWORD env) b
         else (Ok false, b))
      with
      | (Throw e, b') => (Throw e, (closeBrowser (Running b'), store))
      | (Ok _, b') =>
          match scrapeAndSave site keyword pages config b' store with
          | (r, (b'', store')) => (r, (closeBrowser (Running b''), store'))
          end
      end
  end.

End Store.

End Cli.

(** * Specification-side definitions

    The notions the properties are stated with.  They follow the words of
    the specification, or read an outcome off the site without running the
    browser; the lemmas below relate them to the code. *)

(** ** Strings and skills *)

(** [x] occurs in [s]. *)
Definition Substring (x s : string) : Prop :=
  exists before after : string, s = before ++ x ++ after.

(** Lowercase, then trim. *)
Definition normalize (s : string) : string := trim (toLowerCase s).

(** The match predicate of the specification: some configured skill
    contains the job skill or is contained in it, both normalized. *)
Definition SkillMatches (C : list string) (j : string) : Prop :=
  exists c, In c C /\
    (Substring (normalize j) (normalize c) \/ Substring (normalize c) (normalize j)).

(** The test [matchSkills] applies to each job skill. *)
Definition keeps (C : list string) (j : string) : bool :=
  existsb (fun c => includes (normalize j) c || includes c (normalize j))
          (map normalize C).

(** ** The search URL of the specification *)

(** The maximal runs of a string, each with its class: [true] for a run of
    white space, [false] for a run of other characters. *)
Fixpoint runs (s : string) : list (bool * string) :=
  match s with
  | "" => []
  | String c r =>
      match runs r with
      | (w, run) :: rest =>
          if Bool.eqb w (isWhiteSpace c)
          then (w, String c run) :: rest
          else (isWhiteSpace c, String c "") :: (w, run) :: rest
      | [] => [(isWhiteSpace c, String c "")]
      end
  end.

Fixpoint join (pieces : list string) : string :=
  match pieces with
  | [] => ""
  | p :: rest => p ++ join rest
  end.

(** Runs written out, each run of white space as one hyphen. *)
Definition render (l : list (bool * string)) : string :=
  join (map (fun r : bool * string => if fst r then "-" else snd r) l).

(** Every run of white space replaced by one hyphen. *)
Definition hyphenate (s : string) : string := render (runs s).

Fixpoint allChars (p : ascii -> bool) (s : string) : bool :=
  match s with
  | "" => true
  | String c r => p c && allChars p r
  end.

(** Two neighbours differ in class. *)
Fixpoint alternating (l : list (bool * string)) : bool :=
  match l with
  | a :: (b :: _) as rest => negb (Bool.eqb (fst a) (fst b)) && alternating rest
  | _ => true
  end.

(** What is left of the runs once a run of white space at the head has
    been replaced already. *)
Definition afterRun (l : list (bool * string)) : list (bool * string) :=
  match l with
  | (true, _) :: rest => rest
  | _ => l
  end.

Definition origin : string := "https://www.naukri.com".

Definition slug (keyword : string) : string :=
  encodeURIComponent (hyphenate (toLowerCase keyword)).

(** A bound of the experience filter, when the filter is given and the
    bound is defined. *)
Definition bound (experience : option Experience)
    (which : Experience -> option Z) : option Z :=
  match experience with
  | Some e => which e
  | None => None
  end.

Definition optional (prefix : string) (value : option Z) : string :=
  match value with
  | Some v => prefix ++ numberToString v
  | None => ""
  end.

(** [{origin}/{slug}-jobs[-{page}]?k={encoded_keyword}[&niyoMinExp={min}][&niyoMaxExp={max}]],
    the page suffix from page 2 on. *)
Definition searchUrl (keyword : string) (pageNum : Z)
    (experience : option Experience) : string :=
  origin ++ "/" ++ slug keyword ++ "-jobs"
    ++ (if (2 <=? pageNum)%Z then "-" ++ numberToString pageNum else "")
    ++ "?k=" ++ encodeURIComponent keyword
    ++ optional "&niyoMinExp=" (bound experience min)
    ++ optional "&niyoMaxExp=" (bound experience max).

(** ** The listing pass *)





(** What one card contributes to the output sequence. *)
Definition emitted (kw now : string) (card : CardDom) : list JobListing :=
  match extractCard kw now card with
  | Some job => [job]
  | None => []
  end.

(** ** The two scans for the vacancy count *)






(** ** The detail enricher, read off the site *)

Section EnricherModel.

Variable site : Site.

(** The enrichment of a job address faults: the navigation is rejected, or
    it succeeds and the evaluation is rejected. *)
Definition DetailFault (jobUrl : string) : Prop :=
  (exists e, goto site jobUrl = Some e) \/
  (goto site jobUrl = None /\ exists e, detailDocument site jobUrl = inl e).

(** The record the detail pass resolves for a job address. *)
Definition detailsOf (jobUrl : string) : JobDetail :=
  match goto site jobUrl with
  | Some _ => defaultDetail
  | None =>
      match detailDocument site jobUrl with
      | inr document => Detail.evaluate document
      | inl _ => defaultDetail
      end
  end.

(** The secondary pages once [newPage] has resolved. *)
Definition opened (b : Browser) : list (nat * string) :=
  (openPages b ++ [(nextPage b, "about:blank")])%list.

(** The browser after [scrapeJobDetails]. *)
Definition afterDetails (jobUrl : string) (b : Browser) : Browser :=
  match goto site jobUrl with
  | Some _ => mkBrowser (page b) (opened b) (S (nextPage b))
  | None =>
      let located := relocate (nextPage b) jobUrl (opened b) in
      match detailDocument site jobUrl with
      | inl _ => mkBrowser (page b) located (S (nextPage b))
      | inr _ =>
          mkBrowser (page b)
            (filter (fun p => negb (fst p =? nextPage b)%nat) located)
            (S (nextPage b))
      end
  end.

End EnricherModel.

(** Every secondary page has an identifier below the next one. *)
Definition wellFormed (b : Browser) : Prop :=
  Forall (fun p => (fst p < nextPage b)%nat) (openPages b).

(** ** The pagination driver, read off the site *)

(** How a page of the search ends. *)
Inductive Outcome :=
| Faulted (e : Error)
| NoContent
| NoJobs
| Extracted (jobs : list Job).

Definition turnOf (o : Outcome) : Result Turn :=
  match o with
  | Faulted e => Throw e
  | NoContent | NoJobs => Ok Break
  | Extracted jobs => Ok (Pushed jobs)
  end.

Definition recordsOf (o : Outcome) : list Job :=
  match o with
  | Extracted jobs => jobs
  | _ => []
  end.

(** The error [scrapeJobs] raises for a fault [e] of page 1. *)
Definition failed (e : Error) : Error :=
  mkError ("Failed to scrape jobs: " ++ message e).

Section PaginationModel.

Variable site : Site.
Variable keyword : string.
Variable experience : option Experience.
Variable configSkills : list string.
Variable shouldScrapeDetails : bool.
Variable label : string.

(** A job as the page loop pushes it. *)
Definition enriched (job : JobListing) : Job :=
  if shouldScrapeDetails
  then mergeDetails configSkills label job (detailsOf site (jobUrl job))
  else withoutDetails configSkills label job.

Definition outcome (pageNum : Z) : Outcome :=
  let url := buildSearchUrl keyword pageNum experience in
  match goto site url with
  | Some e => Faulted e
  | None =>
      match waitForSelector site url with
      | Some _ => NoContent
      | None =>
          match listingDocument site url with
          | inl e => Faulted e
          | inr jobCards =>
              match extractJobCardsDom keyword (now site) jobCards with
              | [] => NoJobs
              | jobs => Extracted (map enriched jobs)
              end
          end
      end
  end.

(** The records of the pages from [pageNum] on, up to the first page that
    pushes nothing, [remaining] pages at most. *)
Fixpoint accumulate (remaining : nat) (pageNum : Z) : list Job :=
  match remaining with
  | O => []
  | S remaining' =>
      match outcome pageNum with
      | Extracted jobs => (jobs ++ accumulate remaining' (pageNum + 1))%list
      | _ => []
      end
  end.

(** The result of the page loop entered at page 1. *)
Definition firstPage (remaining : nat) : Result (list Job) :=
  match remaining with
  | O => Ok []
  | S remaining' =>
      match outcome 1 with
      | Faulted e => Throw (failed e)
      | NoContent | NoJobs => Ok []
      | Extracted jobs => Ok (jobs ++ accumulate remaining' 2)%list
      end
  end.

End PaginationModel.

Section RunModel.

Variable site : Site.
Variable keyword : string.
Variable config : Config.t.

Definition configSkillsOf : list string :=
  match Config.skills config with
  | Some s => s
  | None => []
  end.

Definition detailsEnabled : bool :=
  match Config.scrapeJobDetails config with
  | Some false => false
  | _ => true
  end.

(** The address of page [pageNum] of the keyword. *)
Definition searchPage (pageNum : Z) : string :=
  buildSearchUrl keyword pageNum (Config.experience config).

(** How page [pageNum] of the keyword ends under the configuration. *)
Definition pageOutcome (pageNum : Z) : Outcome :=
  outcome site keyword (Config.experience config) configSkillsOf
          detailsEnabled (experienceLabel (Config.experience config)) pageNum.

(** A job of the output, rebuilt from its listing. *)
Definition enrichedJob (job : JobListing) : Job :=
  enriched site configSkillsOf detailsEnabled
           (experienceLabel (Config.experience config)) job.

(** The records pushed by the pages before page [n]. *)
Definition earlier (n : nat) : list Job :=
  flat_map (fun i => recordsOf (pageOutcome (Z.of_nat i))) (seq 1 (n - 1)).

End RunModel.

(** [scrapeJobs] rejects. *)
Definition raises (r : Result (list Job) * Browser) : Prop :=
  exists e, fst r = Throw e.

(** ** Concrete pages and sites *)

Definition sampleCard : CardDom :=
  {| titleElement := Some "  Backend Developer ";
     linkElement := Some "https://www.naukri.com/job-listings-backend-1";
     companyElement := Some "Acme";
     locationElement := None;
     expElement := Some "   ";
     salaryElement := None;
     skillElements := [" Node.js "; ""; "MongoDB"];
     descElement := None;
     dateElement := Some "3 days ago" |}.

Definition sampleListing : JobListing :=
  {| title := "Backend Developer";
     company := "Acme";
     location := "Not specified";
     experience := "Not specified";
     salary := "Not disclosed";
     skills := ["Node.js"; "MongoDB"];
     description := "";
     jobUrl := "https://www.naukri.com/job-listings-backend-1";
     postedDate := "3 days ago";
     searchKeyword := "node";
     scrapedAt := "2024-01-01T00:00:00.000Z" |}.

Module Example.

Definition navigationTimeout : Error :=
  mkError "Navigation timeout of 30000 ms exceeded".

Definition selectorTimeout : Error :=
  mkError "Waiting for selector failed: 10000ms exceeded".

Definition contextDestroyed : Error :=
  mkError "Execution context was destroyed".

(** A well-formed listing card. *)
Definition card (i : nat) : CardDom :=
  let n := numberToString (Z.of_nat i) in
  {| titleElement := Some (" Engineer " ++ n ++ " ");
     linkElement := Some ("https://www.naukri.com/job-listings-" ++ n);
     companyElement := Some "Acme";
     locationElement := Some "Pune";
     expElement := Some "2-5 Yrs";
     salaryElement := None;
     skillElements := ["Node.js"; " MongoDB "];
     descElement := None;
     dateElement := Some "3 days ago" |}.

Definition tenCards : list CardDom := map card (seq 1 10).

(** A detail page with a description, key skills, an industry, a salary,
    a date, a vacancy label and an openings text. *)
Definition detailPage : DetailDom :=
  {| descNodes :=
       [None;
        Some "We are looking for a backend engineer who enjoys building reliable services."];
     skillNodes := [[]; ["Express"; "Node.js"; "Express"]];
     allLabels :=
       [mkLabel "Industry Type" (Some "IT Services / Consulting");
        mkLabel "Vacancy" (Some "5 positions")];
     salaryNodes := [Some "Not Disclosed"; Some "10-15 Lacs PA"];
     dateNodes := [[]; ["Posted: 3 days ago"]];
     infoSpans := ["Openings: 7"; "12 Openings"; "Applicants: 40"];
     detailSections := [] |}.

Definition pageOne : string := buildSearchUrl "test" 1 None.

Definition stamp : string := "2024-01-01T00:00:00.000Z".

(** Page 1 of "test" lists ten cards; no other page shows a card. *)
Definition tenThenNone : Site :=
  {| goto := fun _ => None;
     waitForSelector :=
       fun url => if (url =? pageOne)%string then None else Some selectorTimeout;
     listingDocument :=
       fun url => if (url =? pageOne)%string then inr tenCards else inr [];
     detailDocument := fun _ => inr detailPage;
     now := stamp |}.

(** The same site, where the detail page of the third job times out. *)
Definition thirdJob : string := "https://www.naukri.com/job-listings-3".

Definition thirdJobFaults : Site :=
  {| goto :=
       fun url => if (url =? thirdJob)%string then Some navigationTimeout else None;
     waitForSelector := waitForSelector tenThenNone;
     listingDocument := listingDocument tenThenNone;
     detailDocument := detailDocument tenThenNone;
     now := stamp |}.

(** The same site, where the navigation to page 2 of "test" times out. *)
Definition pageTwo : string := buildSearchUrl "test" 2 None.

Definition secondPageFaults : Site :=
  {| goto :=
       fun url => if (url =? pageTwo)%string then Some navigationTimeout else None;
     waitForSelector := fun _ => None;
     listingDocument := listingDocument tenThenNone;
     detailDocument := detailDocument tenThenNone;
     now := stamp |}.

(** A site whose listing pages load and show cards, but on which the
    evaluation in the page is rejected. *)
Definition evaluationFaults : Site :=
  {| goto := fun _ => None;
     waitForSelector := fun _ => None;
     listingDocument := fun _ => inl contextDestroyed;
     detailDocument := fun _ => inr detailPage;
     now := stamp |}.

Definition config : Config.t :=
  Config.make None (Some ["node.js"; "react"]) (Some true).

(** The browser after [initBrowser]: the primary page and nothing else. *)
Definition start : Browser := mkBrowser "about:blank" [] 1.

Definition jobsOf (r : Result (list Job) * Browser) : list Job :=
  match fst r with
  | Ok jobs => jobs
  | Throw _ => []
  end.

Definition tenJobs : list Job :=
  Eval vm_compute in jobsOf (scrapeJobs tenThenNone "test" 2 config start).

Definition tenJobsOneFault : list Job :=
  Eval vm_compute in jobsOf (scrapeJobs thirdJobFaults "test" 2 config start).

(** The first job of the first run and the third job of the second. *)
Definition firstJob : Job :=
  Eval vm_compute in nth 0 tenJobs (withoutDetails [] "" sampleListing).

Definition faultedJob : Job :=
  Eval vm_compute in nth 2 tenJobsOneFault (withoutDetails [] "" sampleListing).

End Example.

(** ** Characters of a URL *)


(** A character of a decimal number. *)
Definition isSignOrDigit (c : ascii) : bool := isDigit c || Ascii.eqb c "-".

(** ** Plausible values of the detail pass *)

(** A string without leading or trailing white space. *)
Definition Trimmed (s : string) : Prop := trim s = s.

(** The text mentions one of the words by which the detail pass
    recognises a posting date. *)
Definition mentionsDate (s : string) : bool :=
  let text := toLowerCase s in
  includes text "ago" || includes text "posted" || includes text "day"
  || includes text "today" || includes text "just now".

(** What the detail pass keeps true of the record it builds. *)
Definition DetailInvariant (r : JobDetail) : Prop :=
  (fullDescription r = "" \/ (50 < length (fullDescription r))%nat) /\
  (NoDup (keySkills r) /\
   Forall (fun s => s <> "" /\ (length s < 100)%nat) (keySkills r)) /\
  Forall (fun s => s <> "" /\ includes (toLowerCase s) "industry" = false)
         (industryTypes r) /\
  (jobPostedAt r = "Not specified" \/ mentionsDate (jobPostedAt r) = true) /\
  (salaryOffered r = "Not disclosed" \/
   (salaryOffered r <> ""
    /\ includes (toLowerCase (salaryOffered r)) "not disclosed" = false)) /\
  (totalVacancy r = "Not specified" \/
   (totalVacancy r <> "" /\ allChars isDigit (totalVacancy r) = true)).


(** The texts a group of skill elements contributes: trimmed, non-empty,
    shorter than 100 characters, each once. *)
Definition groupSkills (elements : list string) : list string :=
  unique (filter (fun text => truthy text && (length text <? 100)%nat)
                 (map trim elements)).

(** ** The two revisions side by side *)

(** How a page ends for the first revision. *)
Definition legacyTurn (o : Outcome) : Result Legacy.Turn :=
  match o with
  | Faulted e => Throw e
  | NoContent | NoJobs => Ok Legacy.Break
  | Extracted jobs => Ok (Legacy.Pushed (map listing jobs))
  end.

(** The listing part of a result of the enriched [scrapeJobs]. *)
Definition listingsOf (r : Result (list Job)) : Result (list JobListing) :=
  match r with
  | Ok jobs => Ok (map listing jobs)
  | Throw e => Throw e
  end.

(** The experience filter adds nothing to the URL. *)
Definition unbounded (experience : option Experience) : Prop :=
  bound experience min = None /\ bound experience max = None.

(** ** The browser along a run *)

(** The open pages are those of [b], and no identifier was given back. *)
Definition SamePages (b b' : Browser) : Prop :=
  openPages b' = openPages b /\ (nextPage b <= nextPage b')%nat.

(** ** Accounting of the saves *)

Module CliModel.

Import Cli.

Section Replies.

Variable Store : Type.
Variable findOneAndUpdate : Store -> Job -> SaveReply * Store.

(** The replies of the store to the jobs of one [scrapeAndSave], in
    order. *)
Fixpoint replies (jobs : list Job) (store : Store) : list SaveReply :=
  match jobs with
  | [] => []
  | job :: rest =>
      fst (findOneAndUpdate store job)
      :: replies rest (snd (findOneAndUpdate store job))
  end.

(** The store after these jobs. *)
Fixpoint stored (jobs : list Job) (store : Store) : Store :=
  match jobs with
  | [] => store
  | job :: rest => stored rest (snd (findOneAndUpdate store job))
  end.

End Replies.

(** The document is not reported as existing. *)
Definition isSaved (r : SaveReply) : bool :=
  match r with
  | Resolved (Some false) => false
  | Resolved _ => true
  | Rejected _ _ => false
  end.

(** The document existed already, or the save hit the unique index. *)
Definition isDuplicate (r : SaveReply) : bool :=
  match r with
  | Resolved (Some false) => true
  | Resolved _ => false
  | Rejected (Some 11000%Z) _ => true
  | Rejected _ _ => false
  end.

(** The save failed for another reason: the job is not stored. *)
Definition isLost (r : SaveReply) : bool :=
  match r with
  | Resolved _ => false
  | Rejected (Some 11000%Z) _ => false
  | Rejected _ _ => true
  end.

Definition hasMatch (job : Job) : bool :=
  (0 <? List.length (matchedSkills job))%nat.

Definition count {A} (f : A -> bool) (l : list A) : nat :=
  List.length (filter f l).

(** The configuration with other keywords. *)
Definition withKeywords (keywords : list string) (config : File) : File :=
  mkFile (Some keywords) (skills config) (experience config) (scraping config).

(** [this.browser] is not a running browser. *)
Definition released (s : Scraper) : Prop :=
  match s with
  | Running _ => False
  | _ => True
  end.

End CliModel.

(** ** A concrete run *)

Module Sample.

(** A login page on which every call resolves and the session marker is
    found. *)
Definition loginPage : LoginPage :=
  {| form := None;
     emailInput := inr true;
     emailClick := None;
     emailType := None;
     passwordInput := inr true;
     passwordClick := None;
     passwordType := None;
     loginButton := inr false;
     buttonClick := None;
     enterPress := None;
     landing := "https://www.naukri.com/mnjuser/homepage";
     marker := None;
     errorMsg := inr false;
     errorText := inr "" |}.

Definition env : Cli.Env :=
  Cli.mkEnv (Some "user@example.com") (Some "secret") None loginPage.

(** A store that holds the addresses saved so far: a job whose address is
    stored is reported as existing, and a job of "Engineer 5" is refused
    by validation. *)
Definition upsert (store : list string) (job : Job)
    : Cli.SaveReply * list string :=
  if (title (listing job) =? "Engineer 5")%string
  then (Cli.Rejected None "Job validation failed", store)
  else if existsb (String.eqb (jobUrl (listing job))) store
       then (Cli.Resolved (Some false), store)
       else (Cli.Resolved None, jobUrl (listing job) :: store).

(** Three keywords; every search page of the second one times out. *)
Definition config : Cli.File :=
  Cli.mkFile (Some ["test"; "down"; "later"]) (Some ["node.js"]) None
             (Some (Cli.mkScraping (Some 2%Z) None (Some true))).

Definition site : Site :=
  {| goto :=
       fun url =>
         if (url =? buildSearchUrl "down" 1 None)%string
         then Some Example.navigationTimeout else None;
     waitForSelector := waitForSelector Example.tenThenNone;
     listingDocument := listingDocument Example.tenThenNone;
     detailDocument := detailDocument Example.tenThenNone;
     now := Example.stamp |}.

End Sample.

(** * Properties *)

(** ** Strings *)

Section StringFacts.

Lemma startsWith_prefix (s x : string) :
  startsWith s x = true <-> exists after, s = x ++ after.
Proof.
  revert s. induction x as [|a x IH]; intros s.
  - destruct s; simpl; split; eauto.
  - destruct s as [|b s]; simpl.
    + split; [discriminate | intros [q Hq]; discriminate].
    + rewrite andb_true_iff, Ascii.eqb_eq, IH. split.
      * intros [-> [q ->]]. now exists q.
      * intros [q Hq]. injection Hq as -> ->. eauto.
Qed.

Lemma includes_substring (s x : string) :
  includes s x = true <-> Substring x s.
Proof.
  induction s as [|c s IH].
  - cbn [includes]. rewrite orb_false_r, startsWith_prefix. split.
    + intros [q Hq]. now exists "", q.
    + intros [p [q Hq]]. destruct p; simpl in Hq; [eauto | discriminate].
  - cbn [includes]. rewrite orb_true_iff, startsWith_prefix, IH. split.
    + intros [[q Hq] | [p [q Hq]]].
      * now exists "", q.
      * exists (String c p), q. simpl. now rewrite Hq.
    + intros [p [q Hq]]. destruct p as [|c' p]; simpl in Hq.
      * left. eauto.
      * right. injection Hq as _ ->. now exists p, q.
Qed.



Lemma append_assoc (a b c : string) : (a ++ b) ++ c = a ++ b ++ c.
Proof. induction a; simpl; congruence. Qed.

Lemma append_empty_r (a : string) : a ++ "" = a.
Proof. induction a; simpl; congruence. Qed.

Lemma truthy_nonempty (s : string) : truthy s = true <-> s <> "".
Proof. destruct s; simpl; split; congruence. Qed.

Lemma orElse_empty (s : string) : orElse s "" = s.
Proof. now destruct s. Qed.

Lemma uniqueFrom_incl (seen xs : list string) (s : string) :
  In s (uniqueFrom seen xs) -> In s xs.
Proof.
  revert seen. induction xs as [|x xs IH]; intros seen; simpl; [trivial|].
  destruct (existsb (String.eqb x) seen); simpl; intuition eauto.
Qed.

End StringFacts.

(** Some values of the built-ins. *)
Example trim_value : trim "  Node.js Developer  " = "Node.js Developer".
Proof. reflexivity. Qed.

Example replaceWhitespace_value :
  replaceWhitespace " node   js  developer" = "-node-js-developer".
Proof. reflexivity. Qed.

Example encodeURIComponent_value :
  encodeURIComponent "C++ & C# (senior)" = "C%2B%2B%20%26%20C%23%20(senior)".
Proof. reflexivity. Qed.

Example unique_value : unique ["a"; "b"; "a"; "c"; "b"] = ["a"; "b"; "c"].
Proof. reflexivity. Qed.

(** ** The skill matcher *)

Section SkillMatcher.

Lemma keeps_SkillMatches (C : list string) (j : string) :
  keeps C j = true <-> SkillMatches C j.
Proof.
  unfold keeps, SkillMatches. rewrite existsb_exists. split.
  - intros [c' [Hin H]]. apply in_map_iff in Hin as [c [<- Hin]].
    exists c. split; [assumption|].
    apply orb_true_iff in H as [H|H]; apply includes_substring in H; tauto.
  - intros [c [Hin H]]. exists (normalize c). split; [now apply in_map|].
    apply orb_true_iff. rewrite !includes_substring. tauto.
Qed.

Lemma matchSkills_filter (J C : list string) :
  matchSkills (Some J) (Some C) = filter (keeps C) J.
Proof.
  unfold matchSkills.
  destruct C as [|c C]; [simpl; induction J; simpl; auto|].
  destruct J as [|j J]; reflexivity.
Qed.

Lemma matchSkills_incl (J C : list string) (s : string) :
  In s (matchSkills (Some J) (Some C)) -> In s J.
Proof. rewrite matchSkills_filter, filter_In. tauto. Qed.

End SkillMatcher.



(** C6: [matchSkills] returns the empty list as soon as one of its two
    arguments is empty or absent; with no configured skill the
    [matchedSkills] of a job is empty, with or without detail scraping. *)
Theorem matchSkills_empty :
  (forall J, matchSkills J None = []) /\
  (forall J, matchSkills J (Some []) = []) /\
  (forall C, matchSkills None C = []) /\
  (forall C, matchSkills (Some []) C = []) /\
  (forall label job details, matchedSkills (mergeDetails [] label job details) = []) /\
  (forall label job, matchedSkills (withoutDetails [] label job) = []).
Proof.
  repeat apply conj.
  - intros [J|]; reflexivity.
  - intros [J|]; reflexivity.
  - intros [C|]; reflexivity.
  - intros [[|c C]|]; reflexivity.
  - reflexivity.
  - intros label job. unfold withoutDetails, matchedSkills.
    rewrite matchSkills_filter. induction (skills job); simpl; auto.
Qed.

(** ** The search URL *)

Section SearchUrl.

(** The runs partition the string. *)
Lemma runs_join (s : string) : join (map snd (runs s)) = s.
Proof.
  induction s as [|c s IH]; [reflexivity|].
  simpl. destruct (runs s) as [|[w run] rest].
  - simpl in *. now rewrite <- IH.
  - destruct (Bool.eqb w (isWhiteSpace c)); simpl in *; now rewrite IH.
Qed.

(** Each run is not empty and made of characters of its class. *)
Lemma runs_homogeneous (s : string) :
  Forall (fun r : bool * string =>
            snd r <> "" /\
            allChars (fun c => Bool.eqb (isWhiteSpace c) (fst r)) (snd r) = true)
         (runs s).
Proof.
  induction s as [|c s IH]; [constructor|].
  simpl. destruct (runs s) as [|[w run] rest].
  - constructor; [|constructor]. simpl. split; [discriminate|].
    now rewrite eqb_reflx.
  - destruct (Bool.eqb w (isWhiteSpace c)) eqn:E.
    + inversion IH as [|? ? [Hne Hall] Hrest]; subst.
      constructor; [|assumption]. simpl in *. split; [discriminate|].
      apply eqb_prop in E. rewrite <- E, eqb_reflx. exact Hall.
    + constructor; [|assumption]. simpl. split; [discriminate|].
      now rewrite eqb_reflx.
Qed.

(** The runs are maximal. *)
Lemma runs_maximal (s : string) : alternating (runs s) = true.
Proof.
  induction s as [|c s IH]; [reflexivity|].
  simpl. destruct (runs s) as [|[w run] rest]; [reflexivity|].
  destruct (Bool.eqb w (isWhiteSpace c)) eqn:E.
  - destruct rest as [|b rest]; [reflexivity|]. exact IH.
  - change (negb (Bool.eqb (isWhiteSpace c) w)
            && alternating ((w, run) :: rest) = true).
    rewrite IH, andb_true_r.
    destruct w, (isWhiteSpace c); simpl in *; congruence.
Qed.

Lemma replaceRuns_render (s : string) :
  replaceRuns false s = render (runs s) /\
  replaceRuns true s = render (afterRun (runs s)).
Proof.
  induction s as [|c s [IHf IHt]]; [split; reflexivity|].
  cbn [replaceRuns runs]. rewrite IHf, IHt.
  destruct (isWhiteSpace c) eqn:W; destruct (runs s) as [|[[|] run] rest];
    split; try reflexivity.
Qed.

(** The regular-expression replacement is the replacement of the runs. *)
Lemma replaceWhitespace_hyphenate (s : string) :
  replaceWhitespace s = hyphenate s.
Proof. apply replaceRuns_render. Qed.

End SearchUrl.

Example runs_value :
  runs "node  js developer"
  = [(false, "node"); (true, "  "); (false, "js"); (true, " "); (false, "developer")].
Proof. reflexivity. Qed.



(** ** The listing pass *)

Section ListingPass.





Lemma extractJobCardsDom_emitted (kw now : string) (cards : list CardDom) :
  extractJobCardsDom kw now cards = flat_map (emitted kw now) cards.
Proof.
  unfold extractJobCardsDom.
  enough (H : forall jobs,
    fold_left
      (fun jobs card =>
         match extractCard kw now card with
         | Some job => (jobs ++ [job])%list
         | None => jobs
         end) cards jobs
    = (jobs ++ flat_map (emitted kw now) cards)%list) by apply (H []).
  induction cards as [|card cards IH]; intros jobs; simpl.
  - now rewrite app_nil_r.
  - rewrite IH. unfold emitted. destruct (extractCard kw now card); simpl.
    + now rewrite <- app_assoc.
    + reflexivity.
Qed.

End ListingPass.



(** ** The detail pass: the vacancy count *)

Section Vacancy.

Import Detail.















End Vacancy.


(** ** The detail enricher *)

Section DetailEnricher.

Variable site : Site.

Lemma locationOf_relocate (id : nat) (url blank : string)
    (pages : list (nat * string)) :
  locationOf id (relocate id url (pages ++ [(id, blank)])%list) = Some url.
Proof.
  induction pages as [|[i u] pages IH]; simpl.
  - now rewrite Nat.eqb_refl; simpl; rewrite Nat.eqb_refl.
  - destruct (i =? id)%nat eqn:E; simpl; rewrite E; [reflexivity | exact IH].
Qed.

(** [scrapeJobDetails] always resolves, with the record read off the
    site. *)
Lemma scrapeJobDetails_run (jobUrl : string) (b : Browser) :
  scrapeJobDetails site jobUrl b
  = (Ok (detailsOf site jobUrl), afterDetails site jobUrl b).
Proof.
  unfold scrapeJobDetails, tryCatch, bind, newPage, tabGoto, tabEvaluate,
    tabClose, settle, detailsOf, afterDetails, opened, bind, ret, throw.
  cbn [page openPages nextPage].
  destruct (goto site jobUrl) as [e|]; [reflexivity|].
  cbn [page openPages nextPage]. rewrite locationOf_relocate.
  destruct (detailDocument site jobUrl) as [e|document]; reflexivity.
Qed.

Lemma detailsOf_fault (jobUrl : string) :
  DetailFault site jobUrl -> detailsOf site jobUrl = defaultDetail.
Proof.
  unfold detailsOf. intros [[e ->] | [-> [e ->]]]; reflexivity.
Qed.

Lemma relocate_fst (id : nat) (url : string) (pages : list (nat * string)) :
  map fst (relocate id url pages) = map fst pages.
Proof.
  induction pages as [|[i u] pages IH]; simpl; [reflexivity|].
  destruct (i =? id)%nat; simpl; congruence.
Qed.

Lemma filter_fresh (id : nat) (pages : list (nat * string)) :
  Forall (fun p => (fst p < id)%nat) pages ->
  filter (fun p => negb (fst p =? id)%nat) pages = pages.
Proof.
  induction 1 as [|[i u] pages Hlt _ IH]; simpl; [reflexivity|].
  simpl in Hlt. destruct (Nat.eqb_spec i id); [lia|]. simpl. now rewrite IH.
Qed.

Lemma relocate_app_fresh (id : nat) (url blank : string)
    (pages : list (nat * string)) :
  Forall (fun p => (fst p < id)%nat) pages ->
  relocate id url (pages ++ [(id, blank)])%list = (pages ++ [(id, url)])%list.
Proof.
  induction 1 as [|[i u] pages Hlt _ IH]; simpl.
  - now rewrite Nat.eqb_refl.
  - simpl in Hlt. destruct (Nat.eqb_spec i id); [lia|]. now rewrite IH.
Qed.

(** On the path without fault the page that was opened is closed again. *)
Lemma scrapeJobDetails_closes (jobUrl : string) (b : Browser) :
  wellFormed b -> ~ DetailFault site jobUrl ->
  openPages (snd (scrapeJobDetails site jobUrl b)) = openPages b.
Proof.
  intros Hwf Hok. rewrite scrapeJobDetails_run. unfold afterDetails, opened.
  destruct (goto site jobUrl) as [e|] eqn:G.
  { exfalso. apply Hok. left. eauto. }
  destruct (detailDocument site jobUrl) as [e|document] eqn:D.
  { exfalso. apply Hok. right. eauto. }
  cbn [snd openPages]. rewrite relocate_app_fresh by exact Hwf.
  rewrite filter_app, filter_fresh by exact Hwf.
  simpl. rewrite Nat.eqb_refl. simpl. apply app_nil_r.
Qed.

(** On a fault the page that was opened stays open: the identifiers of
    the open pages are those of before and the new one. *)
Lemma scrapeJobDetails_leak (jobUrl : string) (b : Browser) :
  DetailFault site jobUrl ->
  map fst (openPages (snd (scrapeJobDetails site jobUrl b)))
  = (map fst (openPages b) ++ [nextPage b])%list.
Proof.
  intros Hfault. rewrite scrapeJobDetails_run. unfold afterDetails, opened.
  destruct Hfault as [[e ->] | [-> [e ->]]]; cbn [snd openPages];
    rewrite ?relocate_fst, map_app; reflexivity.
Qed.

(** Well-formedness is kept, so the lemmas above apply along a run. *)
Lemma scrapeJobDetails_wellFormed (jobUrl : string) (b : Browser) :
  wellFormed b -> wellFormed (snd (scrapeJobDetails site jobUrl b)).
Proof.
  unfold wellFormed. intros Hwf. rewrite scrapeJobDetails_run.
  assert (Hopened : Forall (fun p : nat * string => (fst p < S (nextPage b))%nat)
                           (opened b)).
  { unfold opened. apply Forall_app. split.
    - eapply Forall_impl; [|exact Hwf]. simpl. intros p Hp. lia.
    - constructor; [simpl; lia | constructor]. }
  assert (Hlocated : forall url,
            Forall (fun p : nat * string => (fst p < S (nextPage b))%nat)
                   (relocate (nextPage b) url (opened b))).
  { intros url. rewrite Forall_forall in *. intros p Hp.
    apply (in_map fst) in Hp. rewrite relocate_fst in Hp.
    apply in_map_iff in Hp as [q [Hq Hin]]. rewrite <- Hq. now apply Hopened. }
  unfold afterDetails.
  destruct (goto site jobUrl); [exact Hopened|].
  destruct (detailDocument site jobUrl); cbn [snd openPages nextPage].
  - apply Hlocated.
  - apply incl_Forall with (l1 := relocate (nextPage b) jobUrl (opened b));
      [|apply Hlocated].
    intros p Hp. now apply filter_In in Hp.
Qed.

End DetailEnricher.

Example evaluate_value :
  Detail.evaluate Example.detailPage
  = {| fullDescription :=
         "We are looking for a backend engineer who enjoys building reliable services.";
       keySkills := ["Express"; "Node.js"];
       industryTypes := ["IT Services"; "Consulting"];
       jobPostedAt := "Posted: 3 days ago";
       salaryOffered := "10-15 Lacs PA";
       totalVacancy := "12" |}.
Proof. reflexivity. Qed.

(** ** The pagination driver *)

Section Pagination.

Variable site : Site.
Variable keyword : string.
Variable experience : option Experience.
Variable configSkills : list string.
Variable shouldScrapeDetails : bool.
Variable label : string.

Local Abbreviation outcomeOf :=
  (outcome site keyword experience configSkills shouldScrapeDetails label).
Local Abbreviation accumulated :=
  (accumulate site keyword experience configSkills shouldScrapeDetails label).

Lemma enrichAll_run (jobs : list JobListing) (b : Browser) :
  fst (enrichAll site configSkills label jobs b)
  = Ok (map (fun job => mergeDetails configSkills label job
                          (detailsOf site (jobUrl job))) jobs).
Proof.
  revert b. induction jobs as [|job jobs IH]; intros b; [reflexivity|].
  cbn [enrichAll]. unfold bind at 1. rewrite scrapeJobDetails_run.
  unfold bind at 1.
  specialize (IH (afterDetails site (jobUrl job) b)).
  destruct (enrichAll site configSkills label jobs _) as [[rest|e] b'];
    simpl in IH; [|discriminate].
  injection IH as ->. reflexivity.
Qed.

(** One turn of the page loop ends as the site says. *)
Lemma scrapePage_outcome (pageNum : Z) (b : Browser) :
  fst (scrapePage site keyword pageNum experience configSkills
                  shouldScrapeDetails label b)
  = turnOf (outcomeOf pageNum).
Proof.
  unfold scrapePage, outcome, pageGoto, pageWaitForSelector, extractJobCards,
    tryCatch, bind, settle, ret, throw.
  destruct (goto site _) as [e|]; [reflexivity|].
  cbn [page]. destruct (waitForSelector site _) as [e|]; [reflexivity|].
  cbn [negb page]. destruct (listingDocument site _) as [e|jobCards]; [reflexivity|].
  destruct (extractJobCardsDom keyword (now site) jobCards) as [|job jobs] eqn:E;
    [reflexivity|].
  cbn [List.length Nat.eqb]. unfold enriched.
  destruct shouldScrapeDetails.
  - pose proof (enrichAll_run (job :: jobs) (mkBrowser
      (buildSearchUrl keyword pageNum experience) (openPages b) (nextPage b))) as H.
    destruct (enrichAll _ _ _ _ _) as [[js|e] b']; simpl in H; [|discriminate].
    injection H as ->. reflexivity.
  - reflexivity.
Qed.

(** The page loop entered at a page after the first never raises. *)
Lemma pageLoop_later (remaining : nat) (pageNum : Z) (allJobs : list Job)
    (b : Browser) :
  (2 <= pageNum)%Z ->
  fst (pageLoop site keyword experience configSkills shouldScrapeDetails label
                remaining pageNum allJobs b)
  = Ok (allJobs ++ accumulated remaining pageNum)%list.
Proof.
  revert pageNum allJobs b.
  induction remaining as [|remaining IH]; intros pageNum allJobs b Hne.
  - simpl. now rewrite app_nil_r.
  - cbn [pageLoop accumulate]. unfold bind, tryCatch.
    pose proof (scrapePage_outcome pageNum b) as H.
    destruct (scrapePage _ _ _ _ _ _ _ b) as [[turn|e] b']; simpl in H;
      destruct (outcomeOf pageNum); simpl in H; try discriminate;
      try (injection H as ->); try (now simpl; rewrite app_nil_r).
    + rewrite IH by lia. now rewrite app_assoc.
    + destruct (Z.eqb_spec pageNum 1); [lia|].
      simpl. now rewrite app_nil_r.
Qed.

Lemma pageLoop_first (remaining : nat) (b : Browser) :
  fst (pageLoop site keyword experience configSkills shouldScrapeDetails label
                remaining 1 [] b)
  = firstPage site keyword experience configSkills shouldScrapeDetails label
              remaining.
Proof.
  destruct remaining as [|remaining]; [reflexivity|].
  cbn [pageLoop firstPage]. unfold bind, tryCatch.
  pose proof (scrapePage_outcome 1 b) as H.
  destruct (scrapePage _ _ _ _ _ _ _ b) as [[turn|e] b']; simpl in H;
    destruct (outcomeOf 1); simpl in H; try discriminate;
    try (injection H as ->); try reflexivity.
  apply pageLoop_later. lia.
Qed.

End Pagination.

(** ** [scrapeJobs] as a whole *)

Section ScrapeJobs.

Variable site : Site.
Variable keyword : string.
Variable config : Config.t.

Local Abbreviation accumulated :=
  (accumulate site keyword (Config.experience config) (configSkillsOf config)
              (detailsEnabled config) (experienceLabel (Config.experience config))).

Lemma scrapeJobs_run (maxPages : Z) (b : Browser) :
  fst (scrapeJobs site keyword maxPages config b)
  = firstPage site keyword (Config.experience config) (configSkillsOf config)
              (detailsEnabled config) (experienceLabel (Config.experience config))
              (Z.to_nat maxPages).
Proof. unfold scrapeJobs. apply pageLoop_first. Qed.

(** A page faults when its navigation is rejected, or when it loads, shows
    a card and the extraction of the cards is rejected. *)
Lemma pageOutcome_faulted (pageNum : Z) :
  (exists e, pageOutcome site keyword config pageNum = Faulted e) <->
  (exists e, goto site (searchPage keyword config pageNum) = Some e) \/
  (goto site (searchPage keyword config pageNum) = None
   /\ waitForSelector site (searchPage keyword config pageNum) = None
   /\ exists e, listingDocument site (searchPage keyword config pageNum) = inl e).
Proof.
  unfold pageOutcome, outcome, searchPage.
  destruct (goto site _) as [e|].
  { split; [intros _; left | intros _]; eauto. }
  destruct (waitForSelector site _) as [e|].
  { split; [intros [e' [=]] | intros [[e' [=]] | [_ [[=] _]]]]. }
  destruct (listingDocument site _) as [e|jobCards].
  { split; [intros _; right | intros _]; eauto. }
  destruct (extractJobCardsDom _ _ _);
    (split; [intros [e' [=]] | intros [[e' [=]] | [_ [_ [e' [=]]]]]]).
Qed.

Lemma firstPage_accumulate (remaining : nat) :
  (forall e, pageOutcome site keyword config 1 <> Faulted e) ->
  firstPage site keyword (Config.experience config) (configSkillsOf config)
            (detailsEnabled config) (experienceLabel (Config.experience config))
            remaining
  = Ok (accumulated remaining 1%Z).
Proof.
  intros Hok. destruct remaining as [|remaining]; [reflexivity|].
  unfold firstPage, pageOutcome in *. cbn [accumulate].
  destruct (outcome _ _ _ _ _ _ 1) as [e| | |jobs]; try reflexivity.
  now destruct (Hok e).
Qed.

(** The pages from [start] on push records until the first page that
    does not. *)
Lemma accumulate_until (count : nat) :
  forall (start remaining : nat),
    (count < remaining)%nat ->
    (forall i, (start <= i < start + count)%nat ->
       exists jobs, pageOutcome site keyword config (Z.of_nat i) = Extracted jobs) ->
    (forall jobs,
       pageOutcome site keyword config (Z.of_nat (start + count)) <> Extracted jobs) ->
    accumulated remaining (Z.of_nat start)
    = flat_map (fun i => recordsOf (pageOutcome site keyword config (Z.of_nat i)))
               (seq start count).
Proof.
  unfold pageOutcome.
  induction count as [|count IH]; intros start remaining Hlt Hbefore Hstop;
    (destruct remaining as [|remaining]; [lia|]); cbn [accumulate seq flat_map].
  - rewrite Nat.add_0_r in Hstop.
    destruct (outcome _ _ _ _ _ _ (Z.of_nat start)) as [e| | |jobs];
      try reflexivity.
    now destruct (Hstop jobs).
  - destruct (Hbefore start ltac:(lia)) as [jobs Hjobs]. rewrite Hjobs.
    cbn [recordsOf]. f_equal.
    replace (Z.of_nat start + 1)%Z with (Z.of_nat (S start)) by lia.
    apply IH.
    + lia.
    + intros i Hi. apply Hbefore. lia.
    + intros js. replace (S start + count)%nat with (start + S count)%nat by lia.
      apply Hstop.
Qed.

(** Every job of the output is the enrichment of its own listing. *)
Lemma enriched_listing (listings : list JobListing) :
  Forall (fun job => job = enrichedJob site config (listing job))
         (map (enriched site (configSkillsOf config) (detailsEnabled config)
                 (experienceLabel (Config.experience config))) listings).
Proof.
  apply Forall_map, Forall_forall. intros job _.
  unfold enrichedJob, enriched, mergeDetails, withoutDetails.
  now destruct (detailsEnabled config).
Qed.

Lemma accumulate_enriched (remaining : nat) (pageNum : Z) :
  Forall (fun job => job = enrichedJob site config (listing job))
         (accumulated remaining pageNum).
Proof.
  revert pageNum. induction remaining as [|remaining IH]; intros pageNum;
    cbn [accumulate]; [constructor|].
  destruct (outcome _ _ _ _ _ _ pageNum) as [e| | |jobs] eqn:E;
    try constructor.
  apply Forall_app. split; [|apply IH].
  unfold outcome in E.
  destruct (goto site _); [discriminate|].
  destruct (waitForSelector site _); [discriminate|].
  destruct (listingDocument site _) as [e|jobCards]; [discriminate|].
  destruct (extractJobCardsDom _ _ _) as [|l ls]; [discriminate|].
  injection E as <-. apply (enriched_listing (l :: ls)).
Qed.

Lemma scrapeJobs_enriched (maxPages : Z) (b : Browser) (jobs : list Job) :
  fst (scrapeJobs site keyword maxPages config b) = Ok jobs ->
  Forall (fun job => job = enrichedJob site config (listing job)) jobs.
Proof.
  rewrite scrapeJobs_run. destruct (Z.to_nat maxPages) as [|remaining].
  - intros [= <-]. constructor.
  - cbn [firstPage].
    destruct (outcome _ _ _ _ _ _ 1) as [e| | |js] eqn:E;
      try discriminate; try (intros [= <-]; constructor).
    intros [= <-].
    pose proof (accumulate_enriched (S remaining) 1) as H.
    cbn [accumulate] in H. now rewrite E in H.
Qed.

End ScrapeJobs.

(** ** Faults of the pagination *)

(** C2, as the specification states it, fails: on a site whose first page
    loads and shows cards but whose card extraction is rejected,
    [scrapeJobs] raises although no navigation has faulted on page 1. *)
Lemma raises_without_navigation_fault :
  ~ (raises (scrapeJobs Example.evaluationFaults "test" 2 Example.config Example.start)
     <-> exists e, goto Example.evaluationFaults
                        (searchPage "test" Example.config 1) = Some e).
Proof.
  intros [Honly _].
  destruct Honly as [e He]; [|discriminate].
  eexists. vm_compute. reflexivity.
Qed.

(** C2, amended: [scrapeJobs] raises exactly when the page cap admits page
    1 and page 1 faults, by a rejected navigation or by a rejected card
    extraction; when the pages before page [n] have all pushed records and
    page [n] faults with [n >= 2], shows no card within the wait, or
    yields no record, [scrapeJobs] returns without error exactly the
    records of the pages before [n]; with ten well-formed cards on page 1
    and no card on page 2, two pages give exactly ten records. *)
Theorem pagination_fault_policy :
  (forall (site : Site) (keyword : string) (maxPages : Z) (config : Config.t)
          (b : Browser),
     (raises (scrapeJobs site keyword maxPages config b) <->
      (1 <= maxPages)%Z /\
      ((exists e, goto site (searchPage keyword config 1) = Some e) \/
       (goto site (searchPage keyword config 1) = None
        /\ waitForSelector site (searchPage keyword config 1) = None
        /\ exists e, listingDocument site (searchPage keyword config 1) = inl e)))
     /\
     (forall n : nat,
        (1 <= n)%nat -> (Z.of_nat n <= maxPages)%Z ->
        (forall i, (1 <= i < n)%nat ->
           exists jobs, pageOutcome site keyword config (Z.of_nat i) = Extracted jobs) ->
        ((2 <= n)%nat /\ exists e, pageOutcome site keyword config (Z.of_nat n) = Faulted e)
        \/ pageOutcome site keyword config (Z.of_nat n) = NoContent
        \/ pageOutcome site keyword config (Z.of_nat n) = NoJobs ->
        fst (scrapeJobs site keyword maxPages config b)
        = Ok (earlier site keyword config n))) /\
  (exists jobs,
     fst (scrapeJobs Example.tenThenNone "test" 2 Example.config Example.start)
     = Ok jobs /\ List.length jobs = 10%nat).
Proof.
  split; [|exists Example.tenJobs; split; vm_compute; reflexivity].
  intros site keyword maxPages config b. split.
  - unfold raises. rewrite scrapeJobs_run, <- pageOutcome_faulted.
    unfold pageOutcome. destruct (Z.to_nat maxPages) as [|remaining] eqn:R.
    + simpl. split; [intros [e [=]] | intros [Hle _]; lia].
    + cbn [firstPage]. split.
      * intros [e He]. split; [lia|].
        destruct (outcome _ _ _ _ _ _ 1); try discriminate. eauto.
      * intros [_ [e ->]]. eauto.
  - intros n Hn Hcap Hbefore Hstop.
    rewrite scrapeJobs_run, firstPage_accumulate.
    + f_equal. unfold earlier.
      replace n with (1 + (n - 1))%nat in Hstop by lia.
      apply (accumulate_until site keyword config (n - 1) 1).
      * lia.
      * intros i Hi. apply Hbefore. lia.
      * intros jobs Hjobs. rewrite Hjobs in Hstop.
        destruct Hstop as [[_ [e [=]]] | [[=] | [=]]].
    + intros e He. destruct (Nat.eq_dec n 1) as [->|Hne].
      * change (Z.of_nat 1) with 1%Z in Hstop. rewrite He in Hstop.
        destruct Hstop as [[Hlt _] | [[=] | [=]]]. lia.
      * destruct (Hbefore 1%nat ltac:(lia)) as [jobs Hjobs].
        change (Z.of_nat 1) with 1%Z in Hjobs. congruence.
Qed.

Lemma pagination_fault_policy_witness :
  fst (scrapeJobs Example.secondPageFaults "test" 3 Example.config Example.start)
  = Ok (earlier Example.secondPageFaults "test" Example.config 2).
Proof.
  apply (proj2 (proj1 pagination_fault_policy Example.secondPageFaults "test" 3%Z
                  Example.config Example.start) 2%nat).
  - lia.
  - lia.
  - intros i Hi. assert (i = 1%nat) as -> by lia.
    eexists. vm_compute. reflexivity.
  - left. split; [lia|]. exists Example.navigationTimeout. reflexivity.
Defined.

(** A navigation fault on page 2 of three: the ten records of page 1 are
    returned. *)
Example second_page_fault_value :
  fst (scrapeJobs Example.secondPageFaults "test" 3 Example.config Example.start)
  = Ok Example.tenJobs.
Proof. vm_compute. reflexivity. Qed.

(** ** Faults of the detail enricher *)

(** C5, as the specification states it, fails: the detail page of the
    third of ten jobs times out, and the merged record of that job does
    not have all its detail fields at their defaults, its [keySkills] being
    the skills of the listing card. *)
Lemma faulted_job_keeps_listing_skills :
  exists job,
    nth_error (Example.jobsOf
                 (scrapeJobs Example.thirdJobFaults "test" 2 Example.config
                    Example.start)) 2 = Some job /\
    DetailFault Example.thirdJobFaults (jobUrl (listing job)) /\
    merged job <> defaultDetail /\
    keySkills (merged job) = ["Node.js"; "MongoDB"].
Proof.
  eexists. split; [vm_compute; reflexivity|].
  split; [left; eexists; vm_compute; reflexivity|].
  split; [discriminate | reflexivity].
Qed.

(** C5, amended: when the enrichment of a job address faults,
    [scrapeJobDetails] returns the all-default record and raises nothing;
    the loop over the jobs of a page goes on, merging into every job the
    record of its own address, so that the page pushes as many records as
    it extracted and the page loop goes on as the listing page alone
    decides; the merged record of the faulted job has the defaults in
    [fullDescription], [industryTypes], [jobPostedAt], [salaryOffered] and
    [totalVacancy], while its [keySkills] are the skills of the listing;
    a job whose address does not fault gets the fields the detail pass
    resolves.  With the third of ten jobs faulting the output has ten
    records, the third as said and the nine others with a description. *)
Theorem detail_fault_isolation :
  (forall (site : Site) (configSkills : list string) (label : string),
     (forall jobUrl b,
        DetailFault site jobUrl ->
        fst (scrapeJobDetails site jobUrl b) = Ok defaultDetail) /\
     (forall jobs b,
        fst (enrichAll site configSkills label jobs b)
        = Ok (map (fun job => mergeDetails configSkills label job
                                (detailsOf site (jobUrl job))) jobs)) /\
     (forall job,
        DetailFault site (jobUrl job) ->
        merged (mergeDetails configSkills label job (detailsOf site (jobUrl job)))
        = mkDetail "" (skills job) [] "Not specified" "Not disclosed"
                   "Not specified") /\
     (forall jobUrl document,
        goto site jobUrl = None ->
        detailDocument site jobUrl = inr document ->
        detailsOf site jobUrl = Detail.evaluate document) /\
     (forall keyword experience pageNum b jobs,
        outcome site keyword experience configSkills true label pageNum
        = Extracted jobs ->
        fst (scrapePage site keyword pageNum experience configSkills true label b)
        = Ok (Pushed jobs))) /\
  (exists jobs,
     fst (scrapeJobs Example.thirdJobFaults "test" 2 Example.config Example.start)
     = Ok jobs /\
     List.length jobs = 10%nat /\
     (forall job, nth_error jobs 2 = Some job ->
        merged job = mkDetail "" (skills (listing job)) [] "Not specified"
                              "Not disclosed" "Not specified") /\
     (forall i job, i <> 2%nat -> nth_error jobs i = Some job ->
        fullDescription (merged job) <> "" /\
        keySkills (merged job) = ["Express"; "Node.js"] /\
        totalVacancy (merged job) = "12")).
Proof.
  split.
  - intros site configSkills label. repeat apply conj.
    + intros jobUrl b Hfault. rewrite scrapeJobDetails_run.
      cbn [fst]. now rewrite detailsOf_fault.
    + intros jobs b. apply enrichAll_run.
    + intros job Hfault. rewrite detailsOf_fault by assumption. reflexivity.
    + intros jobUrl document Hgoto Hdoc. unfold detailsOf.
      now rewrite Hgoto, Hdoc.
    + intros keyword experience pageNum b jobs Hout.
      now rewrite scrapePage_outcome, Hout.
  - exists Example.tenJobsOneFault. repeat apply conj.
    + vm_compute. reflexivity.
    + reflexivity.
    + intros job [= <-]. reflexivity.
    + intros i job Hi Hnth.
      do 10 (destruct i as [|i]; [try congruence; injection Hnth as <-;
                                  repeat split; discriminate|]).
      destruct i; discriminate.
Qed.

Lemma detail_fault_isolation_witness :
  fst (scrapeJobDetails Example.thirdJobFaults Example.thirdJob Example.start)
  = Ok defaultDetail.
Proof.
  apply (proj1 (proj1 detail_fault_isolation Example.thirdJobFaults [] "")).
  left. exists Example.navigationTimeout. reflexivity.
Defined.

(** C9, as the code behaves: when the enrichment of a job address faults,
    [scrapeJobDetails] returns the default record with the secondary page
    it opened still open: the open pages are those of before and the new
    one.  The [close] of the page is the last statement of the [try]
    block and is skipped by every fault. *)
Theorem detail_page_left_open_on_fault (site : Site) (jobUrl : string)
    (b : Browser) :
  DetailFault site jobUrl ->
  fst (scrapeJobDetails site jobUrl b) = Ok defaultDetail /\
  map fst (openPages (snd (scrapeJobDetails site jobUrl b)))
  = (map fst (openPages b) ++ [nextPage b])%list.
Proof.
  intros Hfault. split.
  - rewrite scrapeJobDetails_run. cbn [fst]. now rewrite detailsOf_fault.
  - now apply scrapeJobDetails_leak.
Qed.

Lemma detail_page_left_open_on_fault_witness :
  fst (scrapeJobDetails Example.thirdJobFaults Example.thirdJob Example.start)
  = Ok defaultDetail /\
  map fst (openPages (snd (scrapeJobDetails Example.thirdJobFaults
                             Example.thirdJob Example.start)))
  = [1%nat].
Proof.
  apply (detail_page_left_open_on_fault Example.thirdJobFaults Example.thirdJob
           Example.start).
  left. exists Example.navigationTimeout. reflexivity.
Defined.

(** ** Matched skills and key skills of the output *)

Section Output.

Lemma mergeDetails_matched (configSkills : list string) (label : string)
    (job : JobListing) (details : JobDetail) (s : string) :
  let out := mergeDetails configSkills label job details in
  In s (matchedSkills out) ->
  In s (skills (listing out)) \/ In s (keySkills (merged out)).
Proof.
  cbn. intros H. apply matchSkills_incl, uniqueFrom_incl in H.
  apply in_app_or in H. exact H.
Qed.

Lemma withoutDetails_matched (configSkills : list string) (label : string)
    (job : JobListing) (s : string) :
  let out := withoutDetails configSkills label job in
  In s (matchedSkills out) ->
  In s (skills (listing out)) \/ In s (keySkills (merged out)).
Proof. cbn. intros H. apply matchSkills_incl in H. now left. Qed.

Lemma mergeDetails_keySkills (configSkills : list string) (label : string)
    (job : JobListing) (details : JobDetail) :
  keySkills (merged (mergeDetails configSkills label job details))
  = match keySkills details with
    | [] => skills job
    | _ :: _ => keySkills details
    end.
Proof. cbn. now destruct (keySkills details). Qed.

End Output.

(** C7: every element of [matchSkills J C] is an element of [J]; hence in
    every job that [scrapeJobs] returns, with or without detail scraping,
    each matched skill is a skill of the listing or a key skill. *)
Theorem matchedSkills_drawn_from_job :
  (forall (J C : option (list string)) (s : string),
     In s (matchSkills J C) -> exists skills, J = Some skills /\ In s skills) /\
  (forall (site : Site) (keyword : string) (maxPages : Z) (config : Config.t)
          (b : Browser) (jobs : list Job),
     fst (scrapeJobs site keyword maxPages config b) = Ok jobs ->
     forall job, In job jobs ->
     forall s, In s (matchedSkills job) ->
       In s (skills (listing job)) \/ In s (keySkills (merged job))).
Proof.
  split.
  - intros [J|] [C|] s H; try contradiction.
    exists J. split; [reflexivity|]. now apply matchSkills_incl in H.
  - intros site keyword maxPages config b jobs Hrun job Hin s Hs.
    apply scrapeJobs_enriched in Hrun.
    rewrite Forall_forall in Hrun. specialize (Hrun job Hin).
    rewrite Hrun in Hs |- *. unfold enrichedJob, enriched in *.
    destruct (detailsEnabled config).
    + now apply mergeDetails_matched.
    + now apply withoutDetails_matched.
Qed.

Lemma matchedSkills_drawn_from_job_witness :
  In "Node.js" (skills (listing Example.firstJob))
  \/ In "Node.js" (keySkills (merged Example.firstJob)).
Proof.
  apply (proj2 matchedSkills_drawn_from_job Example.tenThenNone "test" 2%Z
           Example.config Example.start Example.tenJobs).
  - vm_compute. reflexivity.
  - left. reflexivity.
  - left. reflexivity.
Defined.

(** C10: with detail scraping enabled, the [keySkills] of a job of the
    output are those of the detail pass when that pass found some, and the
    skills of the listing card when it found none, which includes every
    fault of the enrichment; so they are empty only when both the detail
    pass and the card yielded no skill. *)
Theorem keySkills_fall_back_to_listing :
  (forall (configSkills : list string) (label : string) (job : JobListing)
          (details : JobDetail),
     keySkills (merged (mergeDetails configSkills label job details))
     = match keySkills details with
       | [] => skills job
       | _ :: _ => keySkills details
       end) /\
  (forall (site : Site) (keyword : string) (maxPages : Z) (config : Config.t)
          (b : Browser) (jobs : list Job),
     Config.scrapeJobDetails config <> Some false ->
     fst (scrapeJobs site keyword maxPages config b) = Ok jobs ->
     forall job, In job jobs ->
       let details := detailsOf site (jobUrl (listing job)) in
       (keySkills details = [] -> keySkills (merged job) = skills (listing job)) /\
       (keySkills details <> [] -> keySkills (merged job) = keySkills details) /\
       (DetailFault site (jobUrl (listing job)) ->
        keySkills (merged job) = skills (listing job)) /\
       (keySkills (merged job) = [] ->
        keySkills details = [] /\ skills (listing job) = [])).
Proof.
  split; [apply mergeDetails_keySkills|].
  intros site keyword maxPages config b jobs Hon Hrun job Hin details.
  apply scrapeJobs_enriched in Hrun.
  rewrite Forall_forall in Hrun. specialize (Hrun job Hin).
  assert (Hkey : keySkills (merged job)
                 = match keySkills details with
                   | [] => skills (listing job)
                   | _ :: _ => keySkills details
                   end).
  { rewrite Hrun at 1. unfold enrichedJob, enriched, detailsEnabled.
    destruct (Config.scrapeJobDetails config) as [[|]|];
      try apply mergeDetails_keySkills.
    now destruct Hon. }
  rewrite Hkey. repeat apply conj.
  - intros ->. reflexivity.
  - intros Hne. destruct (keySkills details); [now destruct Hne | reflexivity].
  - intros Hfault. subst details. rewrite detailsOf_fault by assumption.
    reflexivity.
  - destruct (keySkills details); [tauto | discriminate].
Qed.

Lemma keySkills_fall_back_to_listing_witness :
  keySkills (merged Example.faultedJob) = skills (listing Example.faultedJob).
Proof.
  refine (proj1 (proj2 (proj2
    (proj2 keySkills_fall_back_to_listing Example.thirdJobFaults "test" 2%Z
       Example.config Example.start Example.tenJobsOneFault _ _
       Example.faultedJob _))) _).
  - discriminate.
  - vm_compute. reflexivity.
  - right. right. left. reflexivity.
  - left. exists Example.navigationTimeout. reflexivity.
Defined.

(** * Further properties of the code *)

(** ** The skill matcher *)

Section SkillMatcherMore.

Lemma includes_empty (s : string) : includes s "" = true.
Proof. destruct s; reflexivity. Qed.

Lemma includes_refl (s : string) : includes s s = true.
Proof.
  apply includes_substring. exists "", "". simpl. now rewrite append_empty_r.
Qed.

Lemma keeps_blank (C : list string) (j : string) :
  (exists c, In c C /\ normalize c = "") -> keeps C j = true.
Proof.
  intros [c [Hin Hblank]]. unfold keeps. apply existsb_exists.
  exists "". split.
  - rewrite <- Hblank. now apply in_map.
  - now rewrite includes_empty.
Qed.

Lemma filter_all {A} (f : A -> bool) (l : list A) :
  (forall x, In x l -> f x = true) -> filter f l = l.
Proof.
  induction l as [|x l IH]; intros H; simpl; [reflexivity|].
  rewrite (H x) by now left. f_equal. apply IH. intros y Hy. apply H. now right.
Qed.

Lemma filter_idempotent {A} (f : A -> bool) (l : list A) :
  filter f (filter f l) = filter f l.
Proof.
  apply filter_all. intros x Hx. now apply filter_In in Hx.
Qed.

End SkillMatcherMore.

(** X1: configuring more skills never loses a match: a job skill matched
    against [C] is matched against every list that contains [C]. *)
Theorem matchSkills_monotone (J C C' : list string) (s : string) :
  incl C C' ->
  In s (matchSkills (Some J) (Some C)) ->
  In s (matchSkills (Some J) (Some C')).
Proof.
  intros Hincl. rewrite !matchSkills_filter, !filter_In.
  intros [Hin Hkeep]. split; [assumption|].
  apply keeps_SkillMatches in Hkeep. apply keeps_SkillMatches.
  destruct Hkeep as [c [Hc H]]. exists c. split; [now apply Hincl | exact H].
Qed.

Lemma matchSkills_monotone_witness :
  In "ReactJS" (matchSkills (Some ["ReactJS"; "Go"]) (Some ["node.js"; "react"])).
Proof.
  apply (matchSkills_monotone ["ReactJS"; "Go"] ["react"] ["node.js"; "react"]).
  - intros c [<-|[]]. right. now left.
  - vm_compute. now left.
Defined.

(** X2: the skills of a job are matched one by one: matching a
    concatenation of two skill lists gives the concatenation of the two
    results. *)
Theorem matchSkills_app (J1 J2 C : list string) :
  matchSkills (Some (J1 ++ J2)%list) (Some C)
  = (matchSkills (Some J1) (Some C) ++ matchSkills (Some J2) (Some C))%list.
Proof. rewrite !matchSkills_filter. apply filter_app. Qed.

(** X3: matching is idempotent: the matched skills, matched again against
    the same configured skills, are all kept. *)
Theorem matchSkills_idempotent (J C : list string) :
  matchSkills (Some (matchSkills (Some J) (Some C))) (Some C)
  = matchSkills (Some J) (Some C).
Proof. rewrite !matchSkills_filter. apply filter_idempotent. Qed.

(** X4: a configured skill that is empty, or white space only, matches
    everything: with such an entry in the configuration every job skill is
    returned. *)
Theorem matchSkills_blank_configured (J C : list string) :
  (exists c, In c C /\ normalize c = "") ->
  matchSkills (Some J) (Some C) = J.
Proof.
  intros Hblank. rewrite matchSkills_filter. apply filter_all.
  intros j _. now apply keeps_blank.
Qed.

Lemma matchSkills_blank_configured_witness :
  matchSkills (Some ["Cobol"; "Fortran"]) (Some ["react"; "  "])
  = ["Cobol"; "Fortran"].
Proof.
  apply matchSkills_blank_configured. exists "  ". split.
  - right. now left.
  - reflexivity.
Defined.

(** X5: a job skill that equals a configured skill up to letter case and
    surrounding white space is always matched. *)
Theorem matchSkills_same_skill (J C : list string) (j c : string) :
  In j J -> In c C -> normalize j = normalize c ->
  In j (matchSkills (Some J) (Some C)).
Proof.
  intros Hj Hc Hsame. rewrite matchSkills_filter. apply filter_In.
  split; [assumption|]. unfold keeps. apply existsb_exists.
  exists (normalize c). split; [now apply in_map|].
  rewrite Hsame, includes_refl. reflexivity.
Qed.

Lemma matchSkills_same_skill_witness :
  In "  MongoDB " (matchSkills (Some ["Go"; "  MongoDB "]) (Some ["mongodb"])).
Proof.
  apply (matchSkills_same_skill _ _ _ "mongodb").
  - right. now left.
  - now left.
  - reflexivity.
Defined.

(** ** The search URL *)

Section SearchUrlMore.


Lemma allChars_impl (p q : ascii -> bool) (s : string) :
  (forall c, p c = true -> q c = true) ->
  allChars p s = true -> allChars q s = true.
Proof.
  intros Hpq. induction s as [|c s IH]; simpl; [trivial|].
  rewrite !andb_true_iff. intros [Hc Hs]. auto.
Qed.



Lemma string_of_uint_digits (d : Decimal.uint) :
  allChars isDigit (NilEmpty.string_of_uint d) = true.
Proof. induction d; simpl; trivial. Qed.

Lemma numberToString_chars (n : Z) :
  allChars isSignOrDigit (numberToString n) = true.
Proof.
  assert (H : forall d, allChars isSignOrDigit (NilZero.string_of_uint d) = true).
  { intros d. apply allChars_impl with (p := isDigit).
    - intros c Hc. unfold isSignOrDigit. now rewrite Hc.
    - destruct d; try apply string_of_uint_digits. reflexivity. }
  unfold numberToString. destruct (Z.to_int n); simpl; apply H.
Qed.



Lemma numberToString_inj (a b : Z) :
  numberToString a = numberToString b -> a = b.
Proof.
  unfold numberToString. intros H. apply DecimalZ.to_int_inj.
  assert (Hnn : forall z, Z.to_int z <> Decimal.Pos Decimal.Nil
                          /\ Z.to_int z <> Decimal.Neg Decimal.Nil).
  { intros [|p|p]; simpl; split; try discriminate;
      intros [= Hp]; now apply (Unsigned.to_uint_nonnil p). }
  pose proof (NilZero.isi (Z.to_int a) (proj1 (Hnn a)) (proj2 (Hnn a))) as Ha.
  pose proof (NilZero.isi (Z.to_int b) (proj1 (Hnn b)) (proj2 (Hnn b))) as Hb.
  rewrite H in Ha. congruence.
Qed.

Lemma append_cancel_l (a x y : string) : a ++ x = a ++ y -> x = y.
Proof. induction a as [|c a IH]; simpl; [trivial|]. intros [= H]. auto. Qed.

(** Two strings without the character [c], each followed by [c]: the
    first [c] tells where they end. *)
Lemma append_delimited (c : ascii) (a b x y : string) :
  allChars (fun d => negb (Ascii.eqb d c)) a = true ->
  allChars (fun d => negb (Ascii.eqb d c)) b = true ->
  a ++ String c x = b ++ String c y -> a = b.
Proof.
  revert b. induction a as [|d a IH]; intros [|e b]; simpl; trivial.
  - intros _ Hb [= <- _]. rewrite Ascii.eqb_refl in Hb. discriminate.
  - intros Ha _ [= -> _]. rewrite Ascii.eqb_refl in Ha. discriminate.
  - rewrite !andb_true_iff. intros [_ Ha] [_ Hb] [= -> H]. f_equal. eauto.
Qed.

Lemma numberToString_no_question (n : Z) :
  allChars (fun d => negb (Ascii.eqb d "?")) (numberToString n) = true.
Proof.
  apply allChars_impl with (p := isSignOrDigit); [|apply numberToString_chars].
  intros c. destruct c as [[] [] [] [] [] [] [] []]; vm_compute; trivial.
Qed.

(** From page 1 on the URL has the shape of [searchUrl]. *)
Lemma buildSearchUrl_searchUrl (keyword : string) (pageNum : Z)
    (experience : option Experience) :
  (1 <= pageNum)%Z ->
  buildSearchUrl keyword pageNum experience = searchUrl keyword pageNum experience.
Proof.
  intros Hpage. unfold buildSearchUrl, searchUrl, slug, origin.
  rewrite replaceWhitespace_hyphenate.
  set (s := encodeURIComponent (hyphenate (toLowerCase keyword))).
  set (k := encodeURIComponent keyword).
  set (page := if (2 <=? pageNum)%Z then "-" ++ numberToString pageNum else "").
  replace (if (pageNum =? 1)%Z
           then "https://www.naukri.com/" ++ s ++ "-jobs?k=" ++ k
           else "https://www.naukri.com/" ++ s ++ "-jobs-"
                  ++ numberToString pageNum ++ "?k=" ++ k)
    with (("https://www.naukri.com/" ++ s ++ "-jobs" ++ page ++ "?k=" ++ k)).
  - destruct experience as [[[m|] [n|]]|]; simpl;
      rewrite ?append_assoc, ?append_empty_r; simpl;
      rewrite ?append_assoc; reflexivity.
  - unfold page. destruct (Z.eqb_spec pageNum 1) as [->|Hne]; [reflexivity|].
    destruct (Z.leb_spec 2 pageNum); [reflexivity | lia].
Qed.

End SearchUrlMore.


(** X7: for one keyword and one experience filter, two different page
    numbers from 1 on never give the same URL. *)
Theorem buildSearchUrl_page_injective (keyword : string) (p q : Z)
    (experience : option Experience) :
  (1 <= p)%Z -> (1 <= q)%Z ->
  buildSearchUrl keyword p experience = buildSearchUrl keyword q experience ->
  p = q.
Proof.
  intros Hp Hq.
  rewrite (buildSearchUrl_searchUrl keyword p experience Hp).
  rewrite (buildSearchUrl_searchUrl keyword q experience Hq).
  unfold searchUrl. intros H.
  do 4 apply append_cancel_l in H.
  destruct (Z.leb_spec 2 p), (Z.leb_spec 2 q); try lia.
  - rewrite !append_assoc in H. simpl in H. injection H as H.
    apply append_delimited in H; try apply numberToString_no_question.
    now apply numberToString_inj.
  - rewrite append_assoc in H. discriminate.
  - rewrite append_assoc in H. discriminate.
Qed.

Lemma buildSearchUrl_page_injective_witness : 12%Z = (3 * 4)%Z.
Proof.
  apply (buildSearchUrl_page_injective "node js" 12 (3 * 4) None);
    [lia | lia | reflexivity].
Defined.

(** ** The listing pass *)

Section ListingMore.

Lemma trimEnd_idempotent (s : string) : trimEnd (trimEnd s) = trimEnd s.
Proof.
  induction s as [|c s IH]; [reflexivity|]. cbn [trimEnd].
  destruct (trimEnd s) as [|d r] eqn:E.
  - destruct (isWhiteSpace c) eqn:W; [reflexivity|]. cbn [trimEnd]. now rewrite W.
  - change (trimEnd (String c (String d r)))
      with (match trimEnd (String d r) with
            | "" => if isWhiteSpace c then "" else String c ""
            | String _ _ as r' => String c r'
            end).
    now rewrite IH.
Qed.

Lemma trimEnd_head (c : ascii) (s : string) :
  isWhiteSpace c = false -> exists r, trimEnd (String c s) = String c r.
Proof.
  intros W. cbn [trimEnd]. destruct (trimEnd s); [rewrite W|]; eauto.
Qed.

Lemma trimStart_head (s : string) :
  trimStart s = "" \/
  exists c r, trimStart s = String c r /\ isWhiteSpace c = false.
Proof.
  induction s as [|c s IH]; [now left|]. cbn [trimStart].
  destruct (isWhiteSpace c) eqn:W; [exact IH|]. right. eauto.
Qed.

(** [trim] is idempotent: what it returns is trimmed. *)
Lemma trim_Trimmed (s : string) : Trimmed (trim s).
Proof.
  unfold Trimmed, trim. destruct (trimStart_head s) as [-> | [c [r [-> W]]]];
    [reflexivity|].
  destruct (trimEnd_head c r W) as [x Hx]. rewrite Hx.
  cbn [trimStart]. rewrite W, <- Hx. apply trimEnd_idempotent.
Qed.

Lemma orElse_nonempty (a b : string) : b <> "" -> orElse a b <> "".
Proof. destruct a; simpl; [trivial | discriminate]. Qed.

Lemma trimmedOr_nonempty (el : option string) (dflt : string) :
  dflt <> "" -> trimmedOr el dflt <> "".
Proof. intros H. destruct el; simpl; [now apply orElse_nonempty | exact H]. Qed.

Lemma trimmedOr_Trimmed (el : option string) (dflt : string) :
  Trimmed dflt -> Trimmed (trimmedOr el dflt).
Proof.
  intros H. destruct el as [t|]; simpl; [|exact H].
  destruct (trim t) eqn:E; simpl; [exact H|]. rewrite <- E. apply trim_Trimmed.
Qed.

End ListingMore.

Lemma extracted_fields (keyword now : string) (cards : list CardDom)
    (job : JobListing) :
  In job (extractJobCardsDom keyword now cards) ->
  (title job <> "" /\ Trimmed (title job)) /\
  (company job <> "" /\ Trimmed (company job)) /\
  jobUrl job <> "" /\
  location job <> "" /\ experience job <> "" /\ salary job <> "" /\
  postedDate job <> "" /\
  Forall (fun s => s <> "" /\ Trimmed s) (skills job).
Proof.
  rewrite extractJobCardsDom_emitted, in_flat_map.
  intros [card [_ Hjob]]. unfold emitted in Hjob.
  destruct (extractCard keyword now card) as [j|] eqn:E; [|contradiction].
  destruct Hjob as [<-|[]]. unfold extractCard in E.
  destruct (truthy _ && truthy _ && truthy _) eqn:B; [|discriminate].
  injection E as <-.
  apply andb_true_iff in B as [B U]. apply andb_true_iff in B as [T C].
  cbn [title company jobUrl location experience salary postedDate skills].
  apply truthy_nonempty in T, C, U.
  repeat apply conj; trivial;
    try (apply trimmedOr_Trimmed; reflexivity);
    try (apply trimmedOr_nonempty; discriminate).
  apply Forall_forall. intros s Hs. apply filter_In in Hs as [Hin Hs].
  apply truthy_nonempty in Hs. split; [exact Hs|].
  apply in_map_iff in Hin as [t [<- _]]. apply trim_Trimmed.
Qed.

(** X8: a record of the listing pass never has an empty title, company,
    address, location, experience, salary or posting date, its title and
    company carry no surrounding white space, and each of its skills is a
    non-empty trimmed text. *)
Theorem listing_record_fields (keyword now : string) (cards : list CardDom)
    (job : JobListing) :
  In job (extractJobCardsDom keyword now cards) ->
  (title job <> "" /\ Trimmed (title job)) /\
  (company job <> "" /\ Trimmed (company job)) /\
  jobUrl job <> "" /\
  location job <> "" /\ experience job <> "" /\ salary job <> "" /\
  postedDate job <> "" /\
  Forall (fun s => s <> "" /\ Trimmed s) (skills job).
Proof. apply extracted_fields. Qed.

Lemma listing_record_fields_witness :
  (title sampleListing <> "" /\ Trimmed (title sampleListing)) /\
  (company sampleListing <> "" /\ Trimmed (company sampleListing)) /\
  jobUrl sampleListing <> "" /\
  location sampleListing <> "" /\ experience sampleListing <> "" /\
  salary sampleListing <> "" /\ postedDate sampleListing <> "" /\
  Forall (fun s => s <> "" /\ Trimmed s) (skills sampleListing).
Proof.
  apply (listing_record_fields "node" "2024-01-01T00:00:00.000Z" [sampleCard]).
  left. reflexivity.
Defined.

(** ** The detail pass *)

Section DetailMore.

Import Detail.

Lemma existsb_eqb_In (x : string) (seen : list string) :
  existsb (String.eqb x) seen = true <-> In x seen.
Proof.
  rewrite existsb_exists. split.
  - intros [y [Hin Heq]]. apply String.eqb_eq in Heq. now subst.
  - intros Hin. exists x. split; [assumption | apply String.eqb_refl].
Qed.

Lemma uniqueFrom_NoDup (seen xs : list string) :
  NoDup (uniqueFrom seen xs) /\
  forall x, In x (uniqueFrom seen xs) -> ~ In x seen.
Proof.
  revert seen. induction xs as [|x xs IH]; intros seen; simpl.
  - split; [constructor | intros x []].
  - destruct (existsb (String.eqb x) seen) eqn:E; [apply IH|].
    destruct (IH (x :: seen)) as [Hnd Hnew]. split.
    + constructor; [|exact Hnd]. intros Hin. apply (Hnew x Hin). now left.
    + intros y [<-|Hy].
      * intros Hin. apply existsb_eqb_In in Hin. congruence.
      * intros Hin. apply (Hnew y Hy). now right.
Qed.

Lemma unique_NoDup (xs : list string) : NoDup (unique xs).
Proof. apply uniqueFrom_NoDup. Qed.

Lemma unique_incl (xs : list string) (s : string) : In s (unique xs) -> In s xs.
Proof. apply uniqueFrom_incl. Qed.

Lemma takeDigits_digits (s : string) : allChars isDigit (takeDigits s) = true.
Proof.
  induction s as [|c s IH]; [reflexivity|]. simpl.
  destruct (isDigit c) eqn:D; [|reflexivity]. simpl. now rewrite D, IH.
Qed.

Lemma matchDigits_digits (s d : string) :
  matchDigits s = Some d -> d <> "" /\ allChars isDigit d = true.
Proof.
  revert d. induction s as [|c s IH]; intros d; [discriminate|].
  cbn [matchDigits]. destruct (isDigit c) eqn:D; [|apply IH].
  intros [= <-]. split.
  - simpl. now rewrite D.
  - apply (takeDigits_digits (String c s)).
Qed.

Lemma openingsHere_digits (s d : string) :
  openingsHere s = Some d -> d <> "" /\ allChars isDigit d = true.
Proof.
  unfold openingsHere. destruct (truthy (takeDigits s)) eqn:T; [|discriminate].
  destruct (startsWith _ _); [|discriminate]. intros [= <-]. split.
  - now apply truthy_nonempty.
  - apply takeDigits_digits.
Qed.

Lemma matchOpenings_digits (s d : string) :
  matchOpenings s = Some d -> d <> "" /\ allChars isDigit d = true.
Proof.
  revert d. induction s as [|c s IH]; intros d; cbn [matchOpenings].
  - destruct (openingsHere "") eqn:E; [|discriminate].
    intros [= <-]. eapply openingsHere_digits, E.
  - destruct (openingsHere (String c s)) eqn:E.
    + intros [= <-]. eapply openingsHere_digits, E.
    + apply IH.
Qed.

Lemma fold_invariant {A} (P : JobDetail -> Prop)
    (step : JobDetail -> A -> JobDetail) :
  (forall r a, P r -> P (step r a)) ->
  forall (l : list A) (r : JobDetail), P r -> P (fold_left step l r).
Proof.
  intros Hstep l. induction l as [|a l IH]; intros r Hr; simpl; auto.
Qed.

Lemma default_invariant : DetailInvariant defaultDetail.
Proof.
  unfold DetailInvariant, defaultDetail; simpl.
  repeat apply conj; auto; constructor.
Qed.

Lemma description_invariant nodes r :
  DetailInvariant r -> DetailInvariant (description nodes r).
Proof.
  intros Hr. induction nodes as [|[text|] nodes IH]; simpl; trivial.
  destruct (Nat.ltb_spec 50 (length (trim text))); [|exact IH].
  destruct Hr as [_ Hrest]. split; [right; assumption | exact Hrest].
Qed.

Lemma skillSet_clean (groups : list (list string)) :
  NoDup (skillSet groups) /\
  Forall (fun s => s <> "" /\ (length s < 100)%nat) (skillSet groups).
Proof.
  induction groups as [|elements groups IH]; simpl.
  - split; constructor.
  - destruct (0 <? List.length elements)%nat; [|exact IH]. split.
    + apply unique_NoDup.
    + apply Forall_forall. intros s Hs. apply unique_incl, filter_In in Hs.
      destruct Hs as [_ Hs]. apply andb_true_iff in Hs as [Ht Hl].
      split; [now apply truthy_nonempty | now apply Nat.ltb_lt].
Qed.

Lemma setKeySkills_invariant groups r :
  DetailInvariant r -> DetailInvariant (setKeySkills (skillSet groups) r).
Proof.
  intros [H1 [_ H3]]. split; [exact H1|]. split; [|exact H3].
  apply skillSet_clean.
Qed.

Lemma labelStep_invariant r label :
  DetailInvariant r -> DetailInvariant (labelStep r label).
Proof.
  intros Hr. unfold labelStep.
  set (industry := filter _ _).
  assert (Hind : Forall (fun s => s <> ""
                          /\ includes (toLowerCase s) "industry" = false) industry).
  { apply Forall_forall. intros s Hs. apply filter_In in Hs as [_ Hs].
    apply andb_true_iff in Hs as [Ht Hn]. split; [now apply truthy_nonempty|].
    now apply negb_true_iff. }
  assert (H1 : DetailInvariant
                 (if includes (orElse (toLowerCase (trim (labelContent label))) "")
                              "industry"
                  then setIndustryTypes industry r else r)).
  { destruct (includes _ "industry"); [|exact Hr].
    destruct Hr as [Ha [Hb [_ Hd]]]. repeat split; try apply Hb; try apply Hd;
      assumption. }
  destruct (_ || _); [|exact H1].
  destruct (matchDigits _) as [d|] eqn:E; [|exact H1].
  apply matchDigits_digits in E.
  destruct H1 as [Ha [Hb [Hc [Hd [He _]]]]].
  repeat split; try apply Hb; trivial. right. exact E.
Qed.

Lemma salaryFrom_invariant nodes r :
  DetailInvariant r -> DetailInvariant (salaryFrom nodes r).
Proof.
  intros Hr. induction nodes as [|[text|] nodes IH]; simpl; trivial.
  destruct (truthy (trim text) && negb (trim text =? "")
            && negb (includes (toLowerCase (trim text)) "not disclosed")) eqn:E;
    [|exact IH].
  apply andb_true_iff in E as [E Hn]. apply andb_true_iff in E as [Ht _].
  destruct Hr as [Ha [Hb [Hc [Hd [_ Hf]]]]].
  repeat split; try apply Hb; trivial. right. split.
  - now apply truthy_nonempty.
  - now apply negb_true_iff.
Qed.

Lemma dateStep_invariant r content :
  DetailInvariant r -> DetailInvariant (dateStep r content).
Proof.
  intros Hr. unfold dateStep. rewrite orElse_empty.
  destruct (_ || _) eqn:E; [|exact Hr].
  destruct Hr as [Ha [Hb [Hc [_ He]]]].
  repeat split; try apply Hb; try apply He; trivial. right. exact E.
Qed.

Lemma spanStep_invariant r content :
  DetailInvariant r -> DetailInvariant (spanStep r content).
Proof.
  intros Hr. unfold spanStep. destruct (_ && _); [|exact Hr].
  destruct (matchOpenings _) as [d|] eqn:E; [|exact Hr].
  apply matchOpenings_digits in E.
  destruct Hr as [Ha [Hb [Hc [Hd [He _]]]]].
  repeat split; try apply Hb; trivial. right. exact E.
Qed.

Lemma sectionStep_invariant r section :
  DetailInvariant r -> DetailInvariant (sectionStep r section).
Proof.
  intros Hr. unfold sectionStep. destruct (includes _ "industry"); [|exact Hr].
  apply fold_invariant; [|exact Hr]. clear. intros r v Hr.
  destruct (truthy (trim v) && (length (trim v) <? 100)%nat
            && negb (includes (toLowerCase (trim v)) "industry")) eqn:E;
    [|exact Hr].
  apply andb_true_iff in E as [E Hn]. apply andb_true_iff in E as [Ht _].
  destruct Hr as [Ha [Hb [Hc Hd]]].
  repeat split; try apply Hb; try apply Hd; try exact Ha.
  cbn [industryTypes setIndustryTypes]. apply Forall_app. split; [exact Hc|].
  constructor; [|constructor]. split.
  - now apply truthy_nonempty.
  - now apply negb_true_iff.
Qed.

(** The record built by the callback satisfies the invariant. *)
Lemma evaluate_invariant (document : DetailDom) :
  DetailInvariant (evaluate document).
Proof.
  unfold evaluate.
  match goal with
  | |- DetailInvariant (if _ then fold_left sectionStep _ ?r else ?r) =>
      assert (H : DetailInvariant r)
  end.
  { apply fold_invariant; [apply spanStep_invariant|].
    apply fold_invariant;
      [intros r l Hr; apply fold_invariant; [apply dateStep_invariant | exact Hr]|].
    apply salaryFrom_invariant.
    apply fold_invariant; [apply labelStep_invariant|].
    apply setKeySkills_invariant, description_invariant, default_invariant. }
  destruct (_ =? 0)%nat; [|exact H].
  apply fold_invariant; [apply sectionStep_invariant | exact H].
Qed.

(** The key skills are those of [skillSet]: no later statement writes
    them. *)
Lemma fold_field {A B} (f : JobDetail -> B) (step : JobDetail -> A -> JobDetail) :
  (forall r a, f (step r a) = f r) ->
  forall (l : list A) (r : JobDetail), f (fold_left step l r) = f r.
Proof.
  intros Hstep l. induction l as [|a l IH]; intros r; simpl; [reflexivity|].
  now rewrite IH.
Qed.

Lemma evaluate_keySkills (document : DetailDom) :
  keySkills (evaluate document) = skillSet (skillNodes document).
Proof.
  unfold evaluate.
  assert (Hsection : forall r s, keySkills (sectionStep r s) = keySkills r).
  { intros r s. unfold sectionStep. destruct (includes _ "industry"); [|reflexivity].
    apply fold_field. intros r' v. now destruct (_ && _). }
  assert (Hspan : forall r c, keySkills (spanStep r c) = keySkills r).
  { intros r c. unfold spanStep. destruct (_ && _); [|reflexivity].
    now destruct (matchOpenings _). }
  assert (Hdate : forall r c, keySkills (dateStep r c) = keySkills r).
  { intros r c. unfold dateStep. now destruct (_ || _). }
  assert (Hsalary : forall n r, keySkills (salaryFrom n r) = keySkills r).
  { intros n r. induction n as [|[t|] n IH]; simpl; trivial.
    now destruct (_ && _). }
  assert (Hlabel : forall r l, keySkills (labelStep r l) = keySkills r).
  { intros r l. unfold labelStep.
    destruct (_ || _); [destruct (matchDigits _)|];
      destruct (includes _ "industry"); reflexivity. }
  match goal with
  | |- keySkills (if ?c then _ else _) = _ => destruct c
  end; rewrite ?(fold_field _ _ Hsection), (fold_field _ _ Hspan);
    (rewrite fold_field by (intros r l; apply fold_field; apply Hdate));
    rewrite Hsalary, (fold_field _ _ Hlabel); reflexivity.
Qed.

End DetailMore.

Section DetailFields.

Import Detail.


Lemma skillSet_first_group (blanks : list (list string)) (g : list string)
    (rest : list (list string)) :
  Forall (fun e => e = []) blanks -> g <> [] ->
  skillSet (blanks ++ g :: rest) = groupSkills g.
Proof.
  intros Hblanks Hg. induction Hblanks as [|e blanks -> _ IH]; simpl.
  - destruct g; [contradiction | reflexivity].
  - exact IH.
Qed.

Lemma groupSkills_Trimmed (elements : list string) :
  Forall Trimmed (groupSkills elements).
Proof.
  apply Forall_forall. intros s Hs. apply unique_incl, filter_In in Hs.
  destruct Hs as [Hin _]. apply in_map_iff in Hin as [t [<- _]].
  apply trim_Trimmed.
Qed.

End DetailFields.



(** X11: the key skills come from the first skill selector that matches
    any element, and from it alone: the groups of the later selectors are
    never read, even when the first group yields no usable text. *)
Theorem detail_keySkills_first_group (document : DetailDom)
    (blanks : list (list string)) (g : list string) (rest : list (list string)) :
  skillNodes document = (blanks ++ g :: rest)%list ->
  Forall (fun e => e = []) blanks -> g <> [] ->
  keySkills (Detail.evaluate document) = groupSkills g /\
  Forall Trimmed (keySkills (Detail.evaluate document)).
Proof.
  intros Hnodes Hblanks Hg.
  rewrite evaluate_keySkills, Hnodes, skillSet_first_group by assumption.
  split; [reflexivity | apply groupSkills_Trimmed].
Qed.

Lemma detail_keySkills_first_group_witness :
  keySkills (Detail.evaluate
               (mkDetailDom [] [[]; ["  "; ""]; ["Node.js"; "React"]] [] [] [] [] []))
  = groupSkills ["  "; ""]
  /\ Forall Trimmed
       (keySkills (Detail.evaluate
          (mkDetailDom [] [[]; ["  "; ""]; ["Node.js"; "React"]] [] [] [] [] []))).
Proof.
  apply (detail_keySkills_first_group _ [[]] ["  "; ""] [["Node.js"; "React"]]).
  - reflexivity.
  - repeat constructor.
  - discriminate.
Defined.

(** X12: no industry type of the detail pass is empty, and none contains
    the word "industry" in any letter case, whether it comes from a label
    or from the detail sections. *)
Theorem detail_industryTypes_clean (document : DetailDom) :
  Forall (fun s => s <> "" /\ includes (toLowerCase s) "industry" = false)
         (industryTypes (Detail.evaluate document)).
Proof. apply evaluate_invariant. Qed.

(** X13: the salary of the detail pass is the default "Not disclosed" or a
    non-empty text that does not contain "not disclosed" in any letter
    case. *)
Theorem detail_salary_disclosed (document : DetailDom) :
  salaryOffered (Detail.evaluate document) = "Not disclosed" \/
  (salaryOffered (Detail.evaluate document) <> "" /\
   includes (toLowerCase (salaryOffered (Detail.evaluate document)))
            "not disclosed" = false).
Proof. apply evaluate_invariant. Qed.

(** X14: the vacancy count of the detail pass is the default "Not
    specified" or a non-empty string of decimal digits. *)
Theorem detail_vacancy_numeric (document : DetailDom) :
  totalVacancy (Detail.evaluate document) = "Not specified" \/
  (totalVacancy (Detail.evaluate document) <> "" /\
   allChars isDigit (totalVacancy (Detail.evaluate document)) = true).
Proof. apply evaluate_invariant. Qed.

(** X15: the posting date of the detail pass is the default "Not
    specified" or a text that mentions "ago", "posted", "day", "today" or
    "just now" in some letter case. *)
Theorem detail_postedAt_dated (document : DetailDom) :
  jobPostedAt (Detail.evaluate document) = "Not specified" \/
  mentionsDate (jobPostedAt (Detail.evaluate document)) = true.
Proof. apply evaluate_invariant. Qed.

(** ** The browser along a run *)

Section BrowserAlongRun.

Variable site : Site.

Lemma afterDetails_page (jobUrl : string) (b : Browser) :
  page (afterDetails site jobUrl b) = page b
  /\ nextPage (afterDetails site jobUrl b) = S (nextPage b).
Proof.
  unfold afterDetails. destruct (goto site jobUrl); [split; reflexivity|].
  destruct (detailDocument site jobUrl); split; reflexivity.
Qed.






Variable keyword : string.
Variable experience : option Experience.
Variable configSkills : list string.
Variable label : string.

(** One turn of the page loop without detail scraping only moves the
    primary page. *)
Lemma scrapePage_listing_only (pageNum : Z) (b : Browser) :
  SamePages b (snd (scrapePage site keyword pageNum experience configSkills
                               false label b))
  /\ nextPage (snd (scrapePage site keyword pageNum experience configSkills
                               false label b)) = nextPage b.
Proof.
  unfold scrapePage, pageGoto, pageWaitForSelector, extractJobCards,
    tryCatch, bind, settle, ret, throw, SamePages.
  destruct (goto site _) as [e|]; [cbn; split; [split|]; trivial|].
  cbn [page]. destruct (waitForSelector site _) as [e|];
    [cbn; split; [split|]; trivial|].
  cbn [negb page]. destruct (listingDocument site _) as [e|jobCards];
    [cbn; split; [split|]; trivial|].
  destruct (List.length _ =? 0)%nat; cbn; split; [split| |split|]; trivial.
Qed.



End BrowserAlongRun.

(** X16: the detail enricher works in a page of its own: whatever happens,
    the primary page stays where it was, and the identifier of the page it
    opened is never handed out again. *)
Theorem enricher_leaves_primary_page (site : Site) (jobUrl : string) (b : Browser) :
  page (snd (scrapeJobDetails site jobUrl b)) = page b /\
  nextPage (snd (scrapeJobDetails site jobUrl b)) = S (nextPage b).
Proof. rewrite scrapeJobDetails_run. apply afterDetails_page. Qed.

(** X17: when neither the navigation nor the evaluation faults,
    [scrapeJobDetails] returns the record evaluated on the document of the
    job address, and it has closed the page it opened: the open pages are
    those of before. *)
Theorem enricher_success_closes_page (site : Site) (jobUrl : string)
    (document : DetailDom) (b : Browser) :
  wellFormed b ->
  goto site jobUrl = None -> detailDocument site jobUrl = inr document ->
  fst (scrapeJobDetails site jobUrl b) = Ok (Detail.evaluate document) /\
  openPages (snd (scrapeJobDetails site jobUrl b)) = openPages b.
Proof.
  intros Hwf Hgoto Hdoc. split.
  - rewrite scrapeJobDetails_run. unfold detailsOf. now rewrite Hgoto, Hdoc.
  - apply scrapeJobDetails_closes; [exact Hwf|].
    intros [[e He] | [_ [e He]]]; congruence.
Qed.

Lemma enricher_success_closes_page_witness :
  fst (scrapeJobDetails Example.tenThenNone Example.thirdJob Example.start)
  = Ok (Detail.evaluate Example.detailPage) /\
  openPages (snd (scrapeJobDetails Example.tenThenNone Example.thirdJob
                    Example.start)) = openPages Example.start.
Proof.
  apply enricher_success_closes_page.
  - constructor.
  - reflexivity.
  - reflexivity.
Defined.

(** X18: without detail scraping [scrapeJobs] opens no secondary page: the
    open pages and the next page identifier are those of before, whether
    it returns or raises. *)
Theorem scrapeJobs_without_details_opens_nothing (site : Site) (keyword : string)
    (maxPages : Z) (config : Config.t) (b : Browser) :
  Config.scrapeJobDetails config = Some false ->
  openPages (snd (scrapeJobs site keyword maxPages config b)) = openPages b /\
  nextPage (snd (scrapeJobs site keyword maxPages config b)) = nextPage b.
Proof.
  intros Hoff. unfold scrapeJobs. rewrite Hoff.
  generalize (Z.to_nat maxPages) as remaining, 1%Z as pageNum,
    (@nil Job) as allJobs.
  intros remaining. revert b.
  induction remaining as [|remaining IH]; intros b pageNum allJobs;
    [split; reflexivity|].
  cbn [pageLoop]. unfold bind, tryCatch.
  destruct (scrapePage_listing_only site keyword (Config.experience config)
              (match Config.skills config with Some s => s | None => [] end)
              (experienceLabel (Config.experience config)) pageNum b)
    as [[H1 _] H2].
  destruct (scrapePage _ _ _ _ _ _ _ b) as [[[|jobs]|e] b1]; cbn [snd] in *.
  - now split.
  - destruct (IH b1 (pageNum + 1)%Z (allJobs ++ jobs)%list) as [H3 H4].
    split; congruence.
  - destruct (pageNum =? 1)%Z; now split.
Qed.

Lemma scrapeJobs_without_details_opens_nothing_witness :
  openPages (snd (scrapeJobs Example.tenThenNone "test" 2
                    (Config.make None None (Some false)) Example.start))
  = openPages Example.start /\
  nextPage (snd (scrapeJobs Example.tenThenNone "test" 2
                   (Config.make None None (Some false)) Example.start))
  = nextPage Example.start.
Proof.
  apply scrapeJobs_without_details_opens_nothing. reflexivity.
Defined.



(** ** The output of [scrapeJobs] *)

Section OutputMore.

Variable site : Site.
Variable keyword : string.
Variable config : Config.t.

Local Abbreviation enrichedBy :=
  (enriched site (configSkillsOf config) (detailsEnabled config)
            (experienceLabel (Config.experience config))).
Local Abbreviation accumulated :=
  (accumulate site keyword (Config.experience config) (configSkillsOf config)
              (detailsEnabled config) (experienceLabel (Config.experience config))).

Variable P : Job -> Prop.

Hypothesis enriched_P :
  forall cards l,
    In l (extractJobCardsDom keyword (now site) cards) -> P (enrichedBy l).

Lemma outcome_Forall (pageNum : Z) (jobs : list Job) :
  pageOutcome site keyword config pageNum = Extracted jobs -> Forall P jobs.
Proof.
  unfold pageOutcome, outcome.
  destruct (goto site _); [discriminate|].
  destruct (waitForSelector site _); [discriminate|].
  destruct (listingDocument site _) as [e|jobCards]; [discriminate|].
  destruct (extractJobCardsDom _ _ jobCards) as [|l ls] eqn:E; [discriminate|].
  intros [= <-]. change (Forall P (map enrichedBy (l :: ls))).
  apply Forall_map, Forall_forall. intros x Hx.
  apply (enriched_P jobCards). now rewrite E.
Qed.

Lemma accumulate_Forall (remaining : nat) (pageNum : Z) :
  Forall P (accumulated remaining pageNum).
Proof.
  revert pageNum. induction remaining as [|remaining IH]; intros pageNum;
    cbn [accumulate]; [constructor|].
  destruct (outcome _ _ _ _ _ _ pageNum) as [e| | |jobs] eqn:E;
    try constructor.
  apply Forall_app. split; [|apply IH]. eapply outcome_Forall, E.
Qed.

Lemma scrapeJobs_Forall (maxPages : Z) (b : Browser) (jobs : list Job) :
  fst (scrapeJobs site keyword maxPages config b) = Ok jobs -> Forall P jobs.
Proof.
  rewrite scrapeJobs_run. destruct (Z.to_nat maxPages) as [|remaining].
  - intros [= <-]. constructor.
  - cbn [firstPage].
    destruct (outcome _ _ _ _ _ _ 1) as [e| | |js] eqn:E;
      try discriminate; try (intros [= <-]; constructor).
    intros [= <-]. apply Forall_app. split.
    + eapply outcome_Forall, E.
    + apply accumulate_Forall.
Qed.

End OutputMore.

(** X20: [scrapeJobs] never looks beyond the page cap: its result is
    determined by how the pages 1 to [maxPages] end, so two sites that
    differ only on later pages give the same result; with a cap of zero or
    less it visits no page, returns the empty list and leaves the browser
    as it was. *)
Theorem scrapeJobs_respects_page_cap (site site' : Site) (keyword : string)
    (maxPages : Z) (config : Config.t) (b b' : Browser) :
  ((forall p, (1 <= p <= maxPages)%Z ->
      pageOutcome site keyword config p = pageOutcome site' keyword config p) ->
   fst (scrapeJobs site keyword maxPages config b)
   = fst (scrapeJobs site' keyword maxPages config b')) /\
  ((maxPages <= 0)%Z ->
   scrapeJobs site keyword maxPages config b = (Ok [], b)).
Proof.
  split.
  - intros Hsame. rewrite !scrapeJobs_run.
    assert (Hacc : forall remaining p,
      (1 <= p)%Z -> (p + Z.of_nat remaining - 1 <= maxPages)%Z ->
      accumulate site keyword (Config.experience config) (configSkillsOf config)
        (detailsEnabled config) (experienceLabel (Config.experience config))
        remaining p
      = accumulate site' keyword (Config.experience config) (configSkillsOf config)
          (detailsEnabled config) (experienceLabel (Config.experience config))
          remaining p).
    { induction remaining as [|remaining IH]; intros p Hp Hcap; [reflexivity|].
      cbn [accumulate]. pose proof (Hsame p ltac:(lia)) as Hp'.
      unfold pageOutcome in Hp'. rewrite Hp'.
      destruct (outcome site' _ _ _ _ _ p); try reflexivity.
      f_equal. apply IH; lia. }
    destruct (Z.to_nat maxPages) as [|remaining] eqn:R; [reflexivity|].
    cbn [firstPage]. pose proof (Hsame 1%Z ltac:(lia)) as H1.
    unfold pageOutcome in H1. rewrite H1.
    destruct (outcome site' _ _ _ _ _ 1); try reflexivity.
    do 2 f_equal. apply Hacc; lia.
  - intros Hcap. unfold scrapeJobs.
    replace (Z.to_nat maxPages) with 0%nat by lia. reflexivity.
Qed.

Lemma scrapeJobs_respects_page_cap_witness :
  fst (scrapeJobs Example.tenThenNone "test" 1 Example.config Example.start)
  = fst (scrapeJobs Example.secondPageFaults "test" 1 Example.config Example.start).
Proof.
  apply (proj1 (scrapeJobs_respects_page_cap Example.tenThenNone
                  Example.secondPageFaults "test" 1 Example.config
                  Example.start Example.start)).
  intros p Hp. assert (p = 1%Z) as -> by lia. vm_compute. reflexivity.
Defined.

(** X21: the only error [scrapeJobs] raises is the wrapped fault of page 1:
    its message is "Failed to scrape jobs: " followed by the message of
    the rejected navigation, or of the rejected card extraction, of page
    1. *)
Theorem scrapeJobs_error_wraps_cause (site : Site) (keyword : string)
    (maxPages : Z) (config : Config.t) (b : Browser) (error : Error) :
  fst (scrapeJobs site keyword maxPages config b) = Throw error ->
  exists cause,
    message error = "Failed to scrape jobs: " ++ message cause /\
    (goto site (searchPage keyword config 1) = Some cause \/
     listingDocument site (searchPage keyword config 1) = inl cause).
Proof.
  rewrite scrapeJobs_run. destruct (Z.to_nat maxPages); [discriminate|].
  cbn [firstPage]. unfold outcome, searchPage.
  destruct (goto site _) as [e|] eqn:G.
  { intros [= <-]. exists e. split; [reflexivity | now left]. }
  destruct (waitForSelector site _); [discriminate|].
  destruct (listingDocument site _) as [e|jobCards] eqn:L.
  { intros [= <-]. exists e. split; [reflexivity | now right]. }
  destruct (extractJobCardsDom _ _ _); discriminate.
Qed.

Lemma scrapeJobs_error_wraps_cause_witness :
  exists cause,
    message (mkError "Failed to scrape jobs: Execution context was destroyed")
    = "Failed to scrape jobs: " ++ message cause /\
    (goto Example.evaluationFaults (searchPage "test" Example.config 1) = Some cause \/
     listingDocument Example.evaluationFaults (searchPage "test" Example.config 1)
     = inl cause).
Proof.
  apply (scrapeJobs_error_wraps_cause Example.evaluationFaults "test" 2
           Example.config Example.start).
  vm_compute. reflexivity.
Defined.



(** X23: with detail scraping, no skill occurs twice among the matched
    skills of a job, even when the card lists a skill twice or the key
    skills repeat a skill of the card. *)
Theorem scrapeJobs_matched_skills_distinct (site : Site) (keyword : string)
    (maxPages : Z) (config : Config.t) (b : Browser) (jobs : list Job) :
  Config.scrapeJobDetails config <> Some false ->
  fst (scrapeJobs site keyword maxPages config b) = Ok jobs ->
  Forall (fun job => NoDup (matchedSkills job)) jobs.
Proof.
  intros Hon. apply scrapeJobs_Forall. intros cards l _.
  unfold enriched, detailsEnabled.
  destruct (Config.scrapeJobDetails config) as [[|]|];
    try (now destruct Hon);
    unfold mergeDetails; cbn [matchedSkills];
    rewrite matchSkills_filter; apply NoDup_filter, unique_NoDup.
Qed.

Lemma scrapeJobs_matched_skills_distinct_witness :
  Forall (fun job => NoDup (matchedSkills job)) Example.tenJobs.
Proof.
  apply (scrapeJobs_matched_skills_distinct Example.tenThenNone "test" 2
           Example.config Example.start).
  - discriminate.
  - vm_compute. reflexivity.
Defined.

(** ** The two revisions *)

Section Revisions.

Variable site : Site.
Variable keyword : string.
Variable experience : option Experience.
Variable configSkills : list string.
Variable shouldScrapeDetails : bool.
Variable label : string.

Hypothesis no_bound : unbounded experience.

Local Abbreviation outcomeOf :=
  (outcome site keyword experience configSkills shouldScrapeDetails label).
Local Abbreviation accumulated :=
  (accumulate site keyword experience configSkills shouldScrapeDetails label).

Lemma buildSearchUrl_legacy (pageNum : Z) :
  buildSearchUrl keyword pageNum experience = Legacy.buildSearchUrl keyword pageNum.
Proof.
  destruct no_bound as [Hmin Hmax]. unfold buildSearchUrl, Legacy.buildSearchUrl.
  destruct experience as [[m n]|]; [|reflexivity].
  simpl in Hmin, Hmax. subst. reflexivity.
Qed.

Lemma map_listing_enriched (jobs : list JobListing) :
  map listing (map (enriched site configSkills shouldScrapeDetails label) jobs)
  = jobs.
Proof.
  rewrite map_map. rewrite <- (map_id jobs) at 2. apply map_ext.
  intros job. unfold enriched. now destruct shouldScrapeDetails.
Qed.

Lemma legacy_scrapePage_outcome (pageNum : Z) (b : Browser) :
  fst (Legacy.scrapePage site keyword pageNum b) = legacyTurn (outcomeOf pageNum).
Proof.
  unfold Legacy.scrapePage, outcome, pageGoto, pageWaitForSelector,
    extractJobCards, tryCatch, bind, settle, ret, throw.
  rewrite <- buildSearchUrl_legacy.
  destruct (goto site _) as [e|]; [reflexivity|].
  cbn [page]. destruct (waitForSelector site _) as [e|]; [reflexivity|].
  cbn [negb page]. destruct (listingDocument site _) as [e|jobCards]; [reflexivity|].
  destruct (extractJobCardsDom keyword (now site) jobCards) as [|job jobs] eqn:E;
    [reflexivity|].
  cbn [List.length Nat.eqb fst legacyTurn].
  now rewrite (map_listing_enriched (job :: jobs)).
Qed.

Lemma legacy_pageLoop_later (remaining : nat) (pageNum : Z)
    (allJobs : list JobListing) (b : Browser) :
  (2 <= pageNum)%Z ->
  fst (Legacy.pageLoop site keyword remaining pageNum allJobs b)
  = Ok (allJobs ++ map listing (accumulated remaining pageNum))%list.
Proof.
  revert pageNum allJobs b.
  induction remaining as [|remaining IH]; intros pageNum allJobs b Hpage.
  - simpl. now rewrite app_nil_r.
  - cbn [Legacy.pageLoop accumulate]. unfold bind, tryCatch.
    pose proof (legacy_scrapePage_outcome pageNum b) as H.
    destruct (Legacy.scrapePage site keyword pageNum b) as [[turn|e] b'];
      simpl in H; destruct (outcomeOf pageNum); simpl in H; try discriminate;
      try (injection H as ->); try (now simpl; rewrite app_nil_r).
    + rewrite IH by lia. now rewrite map_app, app_assoc.
    + destruct (Z.eqb_spec pageNum 1); [lia|]. simpl. now rewrite app_nil_r.
Qed.

Lemma legacy_pageLoop_first (remaining : nat) (b : Browser) :
  fst (Legacy.pageLoop site keyword remaining 1 [] b)
  = listingsOf (firstPage site keyword experience configSkills
                          shouldScrapeDetails label remaining).
Proof.
  destruct remaining as [|remaining]; [reflexivity|].
  cbn [Legacy.pageLoop firstPage]. unfold bind, tryCatch.
  pose proof (legacy_scrapePage_outcome 1 b) as H.
  destruct (Legacy.scrapePage site keyword 1 b) as [[turn|e] b'];
    simpl in H; destruct (outcomeOf 1); simpl in H; try discriminate;
    try (injection H as ->); try reflexivity.
  rewrite legacy_pageLoop_later by lia. cbn [listingsOf]. now rewrite map_app.
Qed.

End Revisions.

(** X24: the enriched revision extends the first one: without a bound in
    the experience filter, the first revision of [scrapeJobs] returns
    exactly the listing records of the jobs the enriched revision returns,
    in the same order, and raises exactly the same error, whatever the
    configured skills and whether details are scraped or not. *)
Theorem revisions_agree_on_listings (site : Site) (keyword : string)
    (maxPages : Z) (config : Config.t) (b b' : Browser) :
  unbounded (Config.experience config) ->
  fst (Legacy.scrapeJobs site keyword maxPages b)
  = listingsOf (fst (scrapeJobs site keyword maxPages config b')).
Proof.
  intros Hfree. rewrite scrapeJobs_run. unfold Legacy.scrapeJobs.
  now apply legacy_pageLoop_first.
Qed.

Lemma revisions_agree_on_listings_witness :
  fst (Legacy.scrapeJobs Example.thirdJobFaults "test" 2 Example.start)
  = listingsOf (fst (scrapeJobs Example.thirdJobFaults "test" 2 Example.config
                       Example.start)).
Proof.
  apply revisions_agree_on_listings. split; reflexivity.
Defined.

(** ** Login *)

Section Login.

Variable site : Site.
Variable loginPage : LoginPage.

Ltac run_login :=
  unfold login, tryCatch, bind, pageGoto, settle, await, ret, throw;
  repeat match goal with
         | |- context [match ?x with _ => _ end] =>
             match x with
             | goto _ _ => destruct x
             | form _ => destruct x
             | emailInput _ => destruct x as [?|[|]]
             | emailClick _ => destruct x
             | emailType _ => destruct x
             | passwordInput _ => destruct x as [?|[|]]
             | passwordClick _ => destruct x
             | passwordType _ => destruct x
             | loginButton _ => destruct x as [?|[|]]
             | buttonClick _ => destruct x
             | enterPress _ => destruct x
             | errorMsg _ => destruct x as [?|[|]]
             | errorText _ => destruct x
             end
         end.

Lemma login_resolves (email password : option string) (b : Browser) :
  exists ok, fst (login site loginPage email password b) = Ok ok.
Proof.
  unfold login. destruct (negb (provided email) || negb (provided password));
    [eexists; reflexivity|].
  run_login; cbn; destruct (marker loginPage); cbn; run_login; cbn;
    eexists; reflexivity.
Qed.

Lemma login_true (email password : option string) (b : Browser) :
  fst (login site loginPage email password b) = Ok true ->
  provided email = true /\ provided password = true /\
  goto site loginUrl = None /\ form loginPage = None /\ marker loginPage = None.
Proof.
  unfold login. destruct (provided email); [|discriminate].
  destruct (provided password); [|discriminate]. cbn [negb orb].
  unfold tryCatch, bind, pageGoto, settle, await, ret, throw.
  destruct (goto site loginUrl); [discriminate|].
  destruct (form loginPage); [discriminate|].
  destruct (marker loginPage) eqn:Hm; [|intros _; repeat split].
  run_login; cbn; rewrite ?Hm; cbn; run_login; cbn; discriminate.
Qed.

Lemma login_openPages (email password : option string) (b : Browser) :
  openPages (snd (login site loginPage email password b)) = openPages b /\
  nextPage (snd (login site loginPage email password b)) = nextPage b.
Proof.
  unfold login. destruct (negb (provided email) || negb (provided password));
    [split; reflexivity|].
  run_login; cbn; destruct (marker loginPage); cbn; run_login; cbn;
    split; reflexivity.
Qed.

End Login.

(** X25: [login] never rejects, whichever call on the login page fails;
    it resolves to [true] only when both credentials are given, the login
    page has loaded, its form has appeared and the marker of a logged-in
    session has been found; with a credential missing it resolves to
    [false] without touching the browser; and it never opens or closes a
    secondary page. *)
Theorem login_is_safe (site : Site) (loginPage : LoginPage)
    (email password : option string) (b : Browser) :
  (exists ok, fst (login site loginPage email password b) = Ok ok) /\
  (fst (login site loginPage email password b) = Ok true ->
   provided email = true /\ provided password = true /\
   goto site loginUrl = None /\ form loginPage = None
   /\ marker loginPage = None) /\
  (provided email = false \/ provided password = false ->
   login site loginPage email password b = (Ok false, b)) /\
  openPages (snd (login site loginPage email password b)) = openPages b.
Proof.
  repeat apply conj.
  - apply login_resolves.
  - apply login_true.
  - unfold login. intros [-> | ->]; [reflexivity|].
    now rewrite orb_true_r.
  - apply login_openPages.
Qed.

(** ** Scrape and save *)

Section Accounting.

Import Cli CliModel.

Variable Store : Type.
Variable findOneAndUpdate : Store -> Job -> SaveReply * Store.

Local Abbreviation repliesTo := (replies Store findOneAndUpdate).
Local Abbreviation storedAfter := (stored Store findOneAndUpdate).

Lemma saveAll_step (job : Job) (jobs : list Job) (s d m : nat) (store : Store) :
  saveAll Store findOneAndUpdate (job :: jobs) s d m store
  = saveAll Store findOneAndUpdate jobs
      (if isSaved (fst (findOneAndUpdate store job)) then S s else s)
      (if isDuplicate (fst (findOneAndUpdate store job)) then S d else d)
      (if hasMatch job then S m else m)
      (snd (findOneAndUpdate store job)).
Proof.
  cbn [saveAll]. fold (hasMatch job).
  destruct (findOneAndUpdate store job) as [[[[|]|]|[code|] msg] store'];
    try reflexivity.
  cbn [fst snd isSaved isDuplicate].
  destruct code as [|p|p]; try reflexivity.
  repeat (destruct p as [p|p|]; try reflexivity).
Qed.

Lemma saveAll_counts (jobs : list Job) :
  forall (s d m : nat) (store : Store),
    saveAll Store findOneAndUpdate jobs s d m store
    = ((s + count isSaved (repliesTo jobs store),
        d + count isDuplicate (repliesTo jobs store),
        m + count hasMatch jobs)%nat,
       storedAfter jobs store).
Proof.
  unfold count. induction jobs as [|job jobs IH]; intros s d m store.
  - simpl. now rewrite !Nat.add_0_r.
  - rewrite saveAll_step, IH. cbn [replies stored filter].
    destruct (isSaved _), (isDuplicate _), (hasMatch job); cbn [List.length];
      repeat match goal with
             | |- (_, _) = (_, _) => apply f_equal2
             end; try reflexivity; lia.
Qed.

Lemma reply_cases (r : SaveReply) :
  (if isSaved r then 1 else 0) + (if isDuplicate r then 1 else 0)
  + (if isLost r then 1 else 0) = 1.
Proof.
  destruct r as [[[|]|]|[code|] msg]; try reflexivity.
  unfold isSaved, isDuplicate, isLost.
  destruct code as [|p|p]; try reflexivity.
  destruct (Pos.eq_dec p 11000) as [->|Hne]; [reflexivity|].
  repeat (destruct p as [p|p|]; try reflexivity).
Qed.

Lemma replies_partition (rs : list SaveReply) :
  count isSaved rs + count isDuplicate rs + count isLost rs = List.length rs.
Proof.
  unfold count. induction rs as [|r rs IH]; [reflexivity|].
  pose proof (reply_cases r) as Hr. cbn [filter List.length].
  destruct (isSaved r), (isDuplicate r), (isLost r); cbn [List.length] in *; lia.
Qed.

Lemma replies_length (jobs : list Job) (store : Store) :
  List.length (repliesTo jobs store) = List.length jobs.
Proof.
  revert store. induction jobs as [|job jobs IH]; intros store; simpl; auto.
Qed.

Lemma count_le {A} (f : A -> bool) (l : list A) : count f l <= List.length l.
Proof. apply filter_length_le. Qed.

End Accounting.

Section Runs.

Import Cli CliModel.

Variable Store : Type.
Variable findOneAndUpdate : Store -> Job -> SaveReply * Store.
Variable site : Site.

Local Abbreviation scrapeAndSaveOn := (scrapeAndSave Store findOneAndUpdate site).
Local Abbreviation keywordLoopOn := (keywordLoop Store findOneAndUpdate site).




(** A keyword whose first page faults stops the loop over the keywords. *)
Lemma keywordLoop_aborts (pages : Z) (config : File) (k : string)
    (post : list string) :
  (1 <= pages)%Z ->
  (exists e, pageOutcome site k (scraperConfig config) 1 = Faulted e) ->
  forall (pre : list string) (total : Stats) (b : Browser) (store : Store),
    (exists e, fst (keywordLoopOn pages config (pre ++ k :: post) total b store)
               = Throw e) /\
    keywordLoopOn pages config (pre ++ k :: post) total b store
    = keywordLoopOn pages config (pre ++ [k]) total b store.
Proof.
  intros Hpages [e He].
  assert (Hk : forall b store,
            exists st, scrapeAndSaveOn k pages config b store = (Throw (failed e), st)).
  { intros b store. unfold scrapeAndSave.
    pose proof (scrapeJobs_run site k (scraperConfig config) pages b) as H.
    destruct (Z.to_nat pages) as [|remaining] eqn:R; [lia|].
    cbn [firstPage] in H. unfold pageOutcome in He. rewrite He in H.
    destruct (scrapeJobs site k pages (scraperConfig config) b) as [[jobs|e'] b1];
      simpl in H; [discriminate|]. injection H as ->. eauto. }
  induction pre as [|keyword pre IH]; intros total b store; cbn [app keywordLoop].
  - destruct (Hk b store) as [st ->]. split; [eexists|]; reflexivity.
  - destruct (scrapeAndSaveOn keyword pages config b store) as [[r|e'] [b1 s1]].
    + apply IH.
    + split; [eexists|]; reflexivity.
Qed.

(** Only the keywords handed to the loop matter, not those of the file. *)
Lemma keywordLoop_withKeywords (pages : Z) (config : File) (ks keywords : list string) :
  forall (total : Stats) (b : Browser) (store : Store),
    keywordLoopOn pages (withKeywords ks config) keywords total b store
    = keywordLoopOn pages config keywords total b store.
Proof.
  induction keywords as [|keyword rest IH]; intros total b store; [reflexivity|].
  cbn [keywordLoop].
  change (scrapeAndSaveOn keyword pages (withKeywords ks config) b store)
    with (scrapeAndSaveOn keyword pages config b store).
  destruct (scrapeAndSaveOn keyword pages config b store) as [[r|e] [b1 s1]];
    [apply IH | reflexivity].
Qed.

End Runs.

(** X26: [scrapeAndSave] passes an error of [scrapeJobs] on without
    touching the store; otherwise its summary counts every job once:
    [found] is the number of jobs scraped, and each of them is counted as
    saved, as a duplicate, or is lost to a save error other than a
    duplicate key; [matched] counts the jobs with a matched skill, whether
    their save succeeded or not. *)
Theorem scrapeAndSave_accounting (Store : Type)
    (findOneAndUpdate : Store -> Job -> Cli.SaveReply * Store)
    (site : Site) (keyword : string) (pages : Z) (config : Cli.File)
    (b : Browser) (store : Store) :
  match fst (scrapeJobs site keyword pages (Cli.scraperConfig config) b) with
  | Throw e =>
      Cli.scrapeAndSave Store findOneAndUpdate site keyword pages config b store
      = (Throw e,
         (snd (scrapeJobs site keyword pages (Cli.scraperConfig config) b), store))
  | Ok jobs =>
      let replies := CliModel.replies Store findOneAndUpdate jobs store in
      exists stats,
        fst (Cli.scrapeAndSave Store findOneAndUpdate site keyword pages config
                               b store) = Ok stats /\
        Cli.found stats = List.length jobs /\
        Cli.saved stats = CliModel.count CliModel.isSaved replies /\
        Cli.duplicates stats = CliModel.count CliModel.isDuplicate replies /\
        Cli.matched stats = CliModel.count CliModel.hasMatch jobs /\
        (Cli.found stats
         = Cli.saved stats + Cli.duplicates stats
           + CliModel.count CliModel.isLost replies)%nat /\
        (Cli.matched stats <= Cli.found stats)%nat
  end.
Proof.
  unfold Cli.scrapeAndSave.
  destruct (scrapeJobs site keyword pages (Cli.scraperConfig config) b)
    as [[jobs|e] b1]; cbn [fst snd]; [|reflexivity].
  destruct jobs as [|job jobs].
  - exists (Cli.mkStats 0 0 0 0). repeat apply conj; reflexivity || (cbn; lia).
  - cbv zeta. change (List.length (job :: jobs) =? 0)%nat with false. cbv iota.
    rewrite saveAll_counts. eexists. split; [reflexivity|].
    cbn [Cli.found Cli.saved Cli.duplicates Cli.matched plus].
    repeat apply conj; try reflexivity.
    + rewrite replies_partition, replies_length. reflexivity.
    + apply count_le.
Qed.

(** X27: [runFromConfig] stops at the first keyword whose first page
    faults: it raises, the keywords configured after that one are never
    scraped (the run is the one of the configuration that ends with the
    faulting keyword), and the browser is closed all the same. *)
Theorem runFromConfig_aborts_at_first_fault (Store : Type)
    (findOneAndUpdate : Store -> Job -> Cli.SaveReply * Store)
    (env : Cli.Env) (site : Site) (config : Cli.File) (store : Store)
    (pre : list string) (k : string) (post : list string) :
  Cli.keywords config = Some (pre ++ k :: post)%list ->
  (1 <= Cli.pagesOf config)%Z ->
  (exists e, pageOutcome site k (Cli.scraperConfig config) 1 = Faulted e) ->
  (exists e, fst (Cli.runFromConfig Store findOneAndUpdate env site config store)
             = Throw e) /\
  Cli.runFromConfig Store findOneAndUpdate env site config store
  = Cli.runFromConfig Store findOneAndUpdate env site
      (CliModel.withKeywords (pre ++ [k]) config) store /\
  CliModel.released
    (fst (snd (Cli.runFromConfig Store findOneAndUpdate env site config store))).
Proof.
  intros Hkw Hpages Hfault. unfold Cli.runFromConfig. rewrite Hkw.
  cbn [CliModel.withKeywords Cli.keywords].
  replace (Cli.pagesOf (CliModel.withKeywords (pre ++ [k]) config))
    with (Cli.pagesOf config) by reflexivity.
  assert (Hne : forall l : list string, (List.length (pre ++ k :: l) =? 0)%nat = false).
  { intros l. rewrite length_app. simpl. apply Nat.eqb_neq. lia. }
  rewrite !Hne.
  destruct (initBrowser (Cli.launch env)) as [e|b0].
  { split; [eexists; reflexivity | split; [reflexivity | exact I]]. }
  destruct (login _ _ _ _ b0) as [[ok|e] b1].
  2:{ split; [eexists; reflexivity | split; [reflexivity | exact I]]. }
  fold (CliModel.withKeywords (pre ++ [k]) config).
  rewrite keywordLoop_withKeywords.
  destruct (keywordLoop_aborts Store findOneAndUpdate site (Cli.pagesOf config)
              config k post Hpages Hfault pre (Cli.mkStats 0 0 0 0) b1 store)
    as [[e He] Hsame].
  rewrite Hsame in *.
  destruct (Cli.keywordLoop Store findOneAndUpdate site (Cli.pagesOf config)
              config (pre ++ [k]) (Cli.mkStats 0 0 0 0) b1 store)
    as [[total|e'] [b2 s2]]; [discriminate|].
  split; [eexists; reflexivity | split; [reflexivity | exact I]].
Qed.

Lemma runFromConfig_aborts_at_first_fault_witness :
  (exists e, fst (Cli.runFromConfig (list string) Sample.upsert Sample.env
                    Sample.site Sample.config []) = Throw e) /\
  Cli.runFromConfig (list string) Sample.upsert Sample.env Sample.site
    Sample.config []
  = Cli.runFromConfig (list string) Sample.upsert Sample.env Sample.site
      (CliModel.withKeywords (["test"] ++ ["down"]) Sample.config) [] /\
  CliModel.released
    (fst (snd (Cli.runFromConfig (list string) Sample.upsert Sample.env
                 Sample.site Sample.config []))).
Proof.
  apply (runFromConfig_aborts_at_first_fault (list string) Sample.upsert
           Sample.env Sample.site Sample.config [] ["test"] "down" ["later"]).
  - reflexivity.
  - vm_compute. discriminate.
  - exists Example.navigationTimeout. vm_compute. reflexivity.
Defined.

Lemma login_is_safe_witness :
  provided (Some "user@example.com") = true /\
  provided (Some "secret") = true /\
  goto Example.tenThenNone loginUrl = None /\ form Sample.loginPage = None
  /\ marker Sample.loginPage = None.
Proof.
  apply (proj1 (proj2 (login_is_safe Example.tenThenNone Sample.loginPage
                         (Some "user@example.com") (Some "secret") Example.start))).
  vm_compute. reflexivity.
Defined.



(** X29: neither command leaves a browser running: after [runFromConfig]
    and after [runSingleScrape], on every path, the browser is closed or
    was never launched; with no keyword configured [runFromConfig] does
    not launch it and leaves the store alone, and a rejected launch is
    raised with the store untouched. *)
Theorem commands_release_the_browser (Store : Type)
    (findOneAndUpdate : Store -> Job -> Cli.SaveReply * Store)
    (env : Cli.Env) (site : Site) (config : Cli.File) (store : Store)
    (keyword : string) (pages : Z) (withLogin : bool) :
  CliModel.released
    (fst (snd (Cli.runFromConfig Store findOneAndUpdate env site config store))) /\
  CliModel.released
    (fst (snd (Cli.runSingleScrape Store findOneAndUpdate env site config keyword
                 pages withLogin store))) /\
  (Cli.keywords config = None \/ Cli.keywords config = Some [] ->
   Cli.runFromConfig Store findOneAndUpdate env site config store
   = (Ok None, (NotLaunched, store))) /\
  (forall e, Cli.launch env = Some e ->
   Cli.runSingleScrape Store findOneAndUpdate env site config keyword pages
     withLogin store = (Throw e, (NotLaunched, store))).
Proof.
  repeat apply conj.
  - unfold Cli.runFromConfig. destruct (List.length _ =? 0)%nat; [exact I|].
    destruct (initBrowser _); [exact I|].
    destruct (login _ _ _ _ _) as [[ok|e] b1]; [|exact I].
    destruct (Cli.keywordLoop _ _ _ _ _ _ _ _ _) as [[total|e] [b2 s2]]; exact I.
  - unfold Cli.runSingleScrape. destruct (initBrowser _); [exact I|].
    destruct (if withLogin then _ else _) as [[ok|e] b1]; [|exact I].
    destruct (Cli.scrapeAndSave _ _ _ _ _ _ _ _) as [r [b2 s2]]. exact I.
  - unfold Cli.runFromConfig. intros [-> | ->]; reflexivity.
  - intros e He. unfold Cli.runSingleScrape. now rewrite He.
Qed.

Lemma commands_release_the_browser_witness :
  Cli.runFromConfig (list string) Sample.upsert Sample.env Sample.site
    (Cli.mkFile None None None None) ["https://www.naukri.com/job-listings-1"]
  = (Ok None, (NotLaunched, ["https://www.naukri.com/job-listings-1"])).
Proof.
  apply (proj1 (proj2 (proj2
    (commands_release_the_browser (list string) Sample.upsert Sample.env
       Sample.site (Cli.mkFile None None None None)
       ["https://www.naukri.com/job-listings-1"] "test" 1 false)))).
  now left.
Defined.

(** A run of the sample configuration on one keyword: ten jobs found, nine
    saved, the job refused by validation lost, all ten matched. *)
Example sample_run_value :
  fst (Cli.runFromConfig (list string) Sample.upsert Sample.env Sample.site
         (CliModel.withKeywords ["test"] Sample.config) [])
  = Ok (Some (Cli.mkStats 10 9 0 10)).
Proof. vm_compute. reflexivity. Qed.
